(** * The execution sandbox pipeline of the web companion

    A shallow embedding of three services of [web-companion/src/services]:

    - [ImportPathResolver] (import rewriting, [transformCode]),
    - [PackageManager] (the installer, [installPackage]),
    - [PyodideExecutor] and [TestRunner] ([execute], [parseTestResults]).

    JavaScript strings are sequences of UTF-16 code units; they are
    modelled as lists of [N].  The regular expressions of the source are
    modelled by a small backtracking matcher covering exactly the
    constructs the source uses, including the [lastIndex] slot of a
    regular expression created with the [g] flag. *)

From Stdlib Require Import List Bool Arith NArith ZArith String Ascii Lia.
From Stdlib Require Import DecimalString.
Import ListNotations.

Set Implicit Arguments.

(* ================================================================= *)
(** ** JavaScript strings *)

Module JsString.

Definition jschar := N.
Definition jsstring := list jschar.

(** A literal of the source, written as a Rocq string of ASCII
    characters. *)
Definition js (s : string) : jsstring :=
  map N_of_ascii (list_ascii_of_string s).

Definition char_eqb (a b : jschar) : bool := N.eqb a b.

(** [a === b] on strings. *)
Fixpoint str_eqb (a b : jsstring) : bool :=
  match a, b with
  | [], [] => true
  | x :: a', y :: b' => char_eqb x y && str_eqb a' b'
  | _, _ => false
  end.

Fixpoint starts_with (p s : jsstring) : bool :=
  match p, s with
  | [], _ => true
  | x :: p', y :: s' => char_eqb x y && starts_with p' s'
  | _ :: _, [] => false
  end.

(** [s.includes(p)] *)
Fixpoint includes (s p : jsstring) : bool :=
  starts_with p s ||
  match s with
  | [] => false
  | _ :: s' => includes s' p
  end.

Definition newline : jschar := 10%N.

(** [s.split('\n')]: always at least one piece. *)
Fixpoint split_lines (s : jsstring) : list jsstring :=
  match s with
  | [] => [[]]
  | c :: s' =>
      if char_eqb c newline then [] :: split_lines s'
      else match split_lines s' with
           | l :: ls => (c :: l) :: ls
           | [] => [[c]]
           end
  end.

(** [lines.join('\n')] *)
Fixpoint join_lines (ls : list jsstring) : jsstring :=
  match ls with
  | [] => []
  | [l] => l
  | l :: ls' => l ++ newline :: join_lines ls'
  end.

(** A JavaScript string is truthy when it is not empty. *)
Definition truthy (s : jsstring) : bool :=
  match s with [] => false | _ :: _ => true end.

End JsString.
Import JsString.

(* ================================================================= *)
(** ** Regular expressions *)

Module Regex.

(** The pattern constructs that occur in the source: literal
    characters, a class of characters (the two quote characters),
    [\s+], [\s*],
    the assertion [\b] and the assertion [$] (without the [m] flag). *)
Inductive atom :=
| Chr (c : jschar)
| Cls (cs : list jschar)
| Spaces1
| Spaces0
| WordB
| EndOfInput.

Definition regex := list atom.

(** [\s]: the white space and line terminator code units. *)
Definition is_space (c : jschar) : bool :=
  existsb (N.eqb c)
    [9; 10; 11; 12; 13; 32; 160; 5760; 8232; 8233; 8239; 8287; 12288; 65279]%N
  || (N.leb 8192 c && N.leb c 8202).

(** [\w]: [A-Za-z0-9_]. *)
Definition is_word (c : jschar) : bool :=
  (N.leb 65 c && N.leb c 90) || (N.leb 97 c && N.leb c 122)
  || (N.leb 48 c && N.leb c 57) || N.eqb c 95.

Definition word_opt (c : option jschar) : bool :=
  match c with Some x => is_word x | None => false end.

(** [match_here re prev s]: the pattern matched at the start of [s],
    [prev] being the character before it; the result is the length of
    the match.  Quantifiers are greedy and backtrack. *)
Fixpoint match_here (re : regex) (prev : option jschar) (s : jsstring)
  : option nat :=
  match re with
  | [] => Some 0
  | Chr c :: re' =>
      match s with
      | x :: s' =>
          if char_eqb x c then option_map S (match_here re' (Some x) s')
          else None
      | [] => None
      end
  | Cls cs :: re' =>
      match s with
      | x :: s' =>
          if existsb (char_eqb x) cs
          then option_map S (match_here re' (Some x) s')
          else None
      | [] => None
      end
  | Spaces1 :: re' =>
      (fix plus (s : jsstring) : option nat :=
         match s with
         | x :: s' =>
             if is_space x then
               match plus s' with
               | Some n => Some (S n)
               | None => option_map S (match_here re' (Some x) s')
               end
             else None
         | [] => None
         end) s
  | Spaces0 :: re' =>
      (fix star (prev : option jschar) (s : jsstring) : option nat :=
         match s with
         | x :: s' =>
             if is_space x then
               match star (Some x) s' with
               | Some n => Some (S n)
               | None => match_here re' prev s
               end
             else match_here re' prev s
         | [] => match_here re' prev s
         end) prev s
  | WordB :: re' =>
      if xorb (word_opt prev) (word_opt (hd_error s))
      then match_here re' prev s else None
  | EndOfInput :: re' =>
      match s with
      | [] => match_here re' prev s
      | _ :: _ => None
      end
  end.

(** Leftmost match in [s], scanning from its start; [idx] is the index
    of the start of [s] in the whole subject.  The result is the pair
    of the start and end indices of the match. *)
Fixpoint search (re : regex) (prev : option jschar) (s : jsstring)
  (idx : nat) : option (nat * nat) :=
  match match_here re prev s with
  | Some n => Some (idx, idx + n)
  | None =>
      match s with
      | [] => None
      | c :: s' => search re (Some c) s' (S idx)
      end
  end.

(** The subject from index [i] on, with the character before it;
    [None] when [i] is past the end. *)
Fixpoint seek (prev : option jschar) (s : jsstring) (i : nat)
  : option (option jschar * jsstring) :=
  match i, s with
  | 0, _ => Some (prev, s)
  | S _, [] => None
  | S i', c :: s' => seek (Some c) s' i'
  end.

(** [RegExpBuiltinExec] started at [lastIndex]. *)
Definition exec_from (re : regex) (s : jsstring) (lastIndex : nat)
  : option (nat * nat) :=
  match seek None s lastIndex with
  | None => None
  | Some (prev, rest) => search re prev rest lastIndex
  end.

(** [re.test(s)] for a regular expression without the [g] flag. *)
Definition test (re : regex) (s : jsstring) : bool :=
  match exec_from re s 0 with Some _ => true | None => false end.

(** [re.test(s)] for a regular expression with the [g] flag: the search
    starts at [lastIndex]; a success stores the end of the match in
    [lastIndex], a failure stores 0.  The result is paired with the new
    [lastIndex]. *)
Definition test_g (re : regex) (lastIndex : nat) (s : jsstring)
  : bool * nat :=
  match exec_from re s lastIndex with
  | Some (_, e) => (true, e)
  | None => (false, 0)
  end.

(** [s.replace(re, repl)] for a [g] regular expression and a
    replacement without [$]: every match, left to right, is replaced.
    [skip] counts the characters of the current match still to drop. *)
Fixpoint replace_go (re : regex) (repl : jsstring) (prev : option jschar)
  (s : jsstring) (skip : nat) : jsstring :=
  match s with
  | [] =>
      match skip, match_here re prev [] with
      | 0, Some _ => repl
      | _, _ => []
      end
  | c :: s' =>
      match skip with
      | S k => replace_go re repl (Some c) s' k
      | 0 =>
          match match_here re prev s with
          | Some (S n) => repl ++ replace_go re repl (Some c) s' n
          | Some 0 => repl ++ c :: replace_go re repl (Some c) s' 0
          | None => c :: replace_go re repl (Some c) s' 0
          end
      end
  end.

Definition replace_all (re : regex) (repl : jsstring) (s : jsstring)
  : jsstring := replace_go re repl None s 0.

(** The length of [s.match(re)] for a [g] regular expression, 0 when
    the result is [null]. *)
Fixpoint count_go (re : regex) (prev : option jschar) (s : jsstring)
  (skip : nat) : nat :=
  match s with
  | [] =>
      match skip, match_here re prev [] with
      | 0, Some _ => 1
      | _, _ => 0
      end
  | c :: s' =>
      match skip with
      | S k => count_go re (Some c) s' k
      | 0 =>
          match match_here re prev s with
          | Some (S n) => S (count_go re (Some c) s' n)
          | Some 0 => S (count_go re (Some c) s' 0)
          | None => count_go re (Some c) s' 0
          end
      end
  end.

Definition match_count (re : regex) (s : jsstring) : nat :=
  count_go re None s 0.

(** Pattern pieces. *)
Definition lit (s : string) : regex := map Chr (js s).

End Regex.
Import Regex.

(* ================================================================= *)
(** ** ImportPathResolver *)

Module ImportPathResolver.

Record rule := { pattern : regex; source : jsstring; replacement : jsstring }.

Definition from_ (name : string) : regex :=
  lit "from" ++ [Spaces1] ++ lit name ++ [WordB].
Definition import_ (name : string) : regex :=
  lit "import" ++ [Spaces1] ++ lit name ++ [WordB].

Definition quote : jschar := 39%N.
Definition dquote : jschar := 34%N.

Definition mastering (before : list jschar) : jsstring :=
  before ++ js "mastering_performant_code.".

(** [this.importTransformations].  These regular expressions carry the
    [g] flag too, but they are only used through [String.match] and
    [String.replace], which both start at index 0 and leave
    [lastIndex] at 0. *)
Definition importTransformations : list rule :=
  [ {| pattern := lit "from" ++ [Spaces1] ++ lit "src.";
       source := js "/from\s+src\./g";
       replacement := js "from mastering_performant_code." |};
    {| pattern := lit "import" ++ [Spaces1] ++ lit "src.";
       source := js "/import\s+src\./g";
       replacement := js "import mastering_performant_code." |};
    {| pattern := lit "__import__(" ++ [Cls [dquote; quote]] ++ lit "src.";
       source := js "/__import__\([" ++ [dquote; quote] ++ js "]src\./g";
       replacement := mastering (js "__import__(" ++ [dquote]) |};
    {| pattern := [Chr quote] ++ lit "src.";
       source := js "/'src\./g";
       replacement := mastering [quote] |};
    {| pattern := [Chr dquote] ++ lit "src.";
       source := js "/" ++ [dquote] ++ js "src\./g";
       replacement := mastering [dquote] |} ].

Definition rel (kw : string -> regex) (name repl : string) : rule :=
  {| pattern := kw name; source := []; replacement := js repl |}.

(** [this.relativeImportMappings], in the order of the source. *)
Definition relativeImportMappings : list rule :=
  [
    rel from_ "dynamic_array" "from mastering_performant_code.chapter_01.dynamic_array";
    rel import_ "dynamic_array" "import mastering_performant_code.chapter_01.dynamic_array";
    rel from_ "hash_table" "from mastering_performant_code.chapter_01.hash_table";
    rel import_ "hash_table" "import mastering_performant_code.chapter_01.hash_table";
    rel from_ "simple_set" "from mastering_performant_code.chapter_01.simple_set";
    rel import_ "simple_set" "import mastering_performant_code.chapter_01.simple_set";
    rel from_ "analyzer" "from mastering_performant_code.chapter_01.analyzer";
    rel import_ "analyzer" "import mastering_performant_code.chapter_01.analyzer";
    (* Chapter 2 imports - including relative imports *)
    rel from_ "algorithms" "from mastering_performant_code.chapter_02.algorithms";
    rel import_ "algorithms" "import mastering_performant_code.chapter_02.algorithms";
    rel from_ "benchmarks" "from mastering_performant_code.chapter_02.benchmarks";
    rel import_ "benchmarks" "import mastering_performant_code.chapter_02.benchmarks";
    rel from_ "profiler" "from mastering_performant_code.chapter_02.profiler";
    rel import_ "profiler" "import mastering_performant_code.chapter_02.profiler";
    (* Handle relative imports for Chapter 2 *)
    rel from_ ".algorithms" "from mastering_performant_code.chapter_02.algorithms";
    rel from_ ".benchmarks" "from mastering_performant_code.chapter_02.benchmarks";
    rel from_ ".profiler" "from mastering_performant_code.chapter_02.profiler";
    (* Chapter 3 imports *)
    rel from_ "applications" "from mastering_performant_code.chapter_03.applications";
    rel import_ "applications" "import mastering_performant_code.chapter_03.applications";
    rel from_ ".applications" "from mastering_performant_code.chapter_03.applications";
    rel from_ "dynamic_array" "from mastering_performant_code.chapter_03.dynamic_array";
    rel import_ "dynamic_array" "import mastering_performant_code.chapter_03.dynamic_array";
    rel from_ ".dynamic_array" "from mastering_performant_code.chapter_03.dynamic_array";
    (* Add more chapter-specific mappings as needed *)
    (* Chapter 4 imports *)
    rel from_ "singly_linked_list" "from mastering_performant_code.chapter_04.singly_linked_list";
    rel from_ "doubly_linked_list" "from mastering_performant_code.chapter_04.doubly_linked_list";
    rel from_ ".singly_linked_list" "from mastering_performant_code.chapter_04.singly_linked_list";
    rel from_ ".doubly_linked_list" "from mastering_performant_code.chapter_04.doubly_linked_list";
    (* Chapter 5 imports *)
    rel from_ "priority_queue" "from mastering_performant_code.chapter_05.priority_queue";
    rel from_ "skip_list" "from mastering_performant_code.chapter_05.skip_list";
    rel from_ ".priority_queue" "from mastering_performant_code.chapter_05.priority_queue";
    rel from_ ".skip_list" "from mastering_performant_code.chapter_05.skip_list";
    (* Chapter 6 imports *)
    rel from_ "bst_node" "from mastering_performant_code.chapter_06.bst_node";
    rel from_ ".bst_node" "from mastering_performant_code.chapter_06.bst_node";
    (* Chapter 7 imports *)
    rel from_ "avl_node" "from mastering_performant_code.chapter_07.avl_node";
    rel from_ ".avl_node" "from mastering_performant_code.chapter_07.avl_node";
    (* Chapter 8 imports *)
    rel from_ "red_black_tree" "from mastering_performant_code.chapter_08.red_black_tree";
    rel from_ ".red_black_tree" "from mastering_performant_code.chapter_08.red_black_tree";
    (* Chapter 9 imports *)
    rel from_ "btree_node" "from mastering_performant_code.chapter_09.btree_node";
    rel from_ ".btree_node" "from mastering_performant_code.chapter_09.btree_node";
    (* Chapter 10 imports *)
    rel from_ "autocomplete" "from mastering_performant_code.chapter_10.autocomplete";
    rel from_ ".autocomplete" "from mastering_performant_code.chapter_10.autocomplete";
    (* Chapter 11 imports *)
    rel from_ "binary_heap" "from mastering_performant_code.chapter_11.binary_heap";
    rel from_ ".binary_heap" "from mastering_performant_code.chapter_11.binary_heap";
    rel from_ "heap_sort" "from mastering_performant_code.chapter_11.heap_sort";
    rel from_ ".heap_sort" "from mastering_performant_code.chapter_11.heap_sort";
    rel from_ "task_scheduler" "from mastering_performant_code.chapter_11.task_scheduler";
    rel from_ ".task_scheduler" "from mastering_performant_code.chapter_11.task_scheduler";
    (* Chapter 12 imports *)
    rel from_ "disjoint_set" "from mastering_performant_code.chapter_12.disjoint_set";
    rel from_ ".disjoint_set" "from mastering_performant_code.chapter_12.disjoint_set";
    (* Chapter 13 imports *)
    rel from_ "hash_table" "from mastering_performant_code.chapter_13.hash_table";
    rel from_ ".hash_table" "from mastering_performant_code.chapter_13.hash_table";
    (* Chapter 14 imports *)
    rel from_ "bloom_filter" "from mastering_performant_code.chapter_14.bloom_filter";
    rel from_ "counting_bloom_filter" "from mastering_performant_code.chapter_14.counting_bloom_filter";
    rel from_ "scalable_bloom_filter" "from mastering_performant_code.chapter_14.scalable_bloom_filter";
    rel from_ ".bloom_filter" "from mastering_performant_code.chapter_14.bloom_filter";
    rel from_ ".counting_bloom_filter" "from mastering_performant_code.chapter_14.counting_bloom_filter";
    rel from_ ".scalable_bloom_filter" "from mastering_performant_code.chapter_14.scalable_bloom_filter";
    (* Chapter 15 imports *)
    rel from_ "lru_cache" "from mastering_performant_code.chapter_15.lru_cache";
    rel from_ "lfu_cache" "from mastering_performant_code.chapter_15.lfu_cache";
    rel from_ "real_world_applications" "from mastering_performant_code.chapter_15.real_world_applications";
    rel from_ "performance_analyzer" "from mastering_performant_code.chapter_15.performance_analyzer";
    rel from_ ".lru_cache" "from mastering_performant_code.chapter_15.lru_cache";
    rel from_ ".lfu_cache" "from mastering_performant_code.chapter_15.lfu_cache";
    rel from_ ".real_world_applications" "from mastering_performant_code.chapter_15.real_world_applications";
    rel from_ ".performance_analyzer" "from mastering_performant_code.chapter_15.performance_analyzer";
    (* Chapter 16 imports *)
    rel from_ "memory_profiler" "from mastering_performant_code.chapter_16.memory_profiler";
    rel from_ "object_pool" "from mastering_performant_code.chapter_16.object_pool";
    rel from_ "integration_patterns" "from mastering_performant_code.chapter_16.integration_patterns";
    rel from_ ".memory_profiler" "from mastering_performant_code.chapter_16.memory_profiler";
    rel from_ ".object_pool" "from mastering_performant_code.chapter_16.object_pool";
    rel from_ ".integration_patterns" "from mastering_performant_code.chapter_16.integration_patterns";
    (* Additional module patterns for cross-chapter imports *)
    rel from_ "btree" "from mastering_performant_code.chapter_09.btree";
    rel from_ ".btree" "from mastering_performant_code.chapter_09.btree";
    rel from_ "database_index" "from mastering_performant_code.chapter_09.database_index";
    rel from_ ".database_index" "from mastering_performant_code.chapter_09.database_index";
    rel from_ "recursive_bst" "from mastering_performant_code.chapter_06.recursive_bst";
    rel from_ ".recursive_bst" "from mastering_performant_code.chapter_06.recursive_bst"
  ].

(** The two guards of the line loop; they have no [g] flag. *)
Definition guard_from : regex :=
  lit "from" ++ [Spaces1] ++ lit "mastering_performant_code.".
Definition guard_import : regex :=
  lit "import" ++ [Spaces1] ++ lit "mastering_performant_code.".

(** The mutable part of a resolver that [transformCode] touches: the
    [lastIndex] of each regular expression of
    [relativeImportMappings], in table order.  A missing entry reads
    as 0. *)
Record resolver := { lastIndexes : list nat }.

(** [new ImportPathResolver()] *)
Definition fresh : resolver :=
  {| lastIndexes := map (fun _ => 0) relativeImportMappings |}.

Record transformation := {
  t_pattern : jsstring;
  t_replacement : jsstring;
  t_count : nat;
  t_type : jsstring
}.

Record diagnostics := {
  transformations : list transformation;
  warnings : list jsstring;
  errors : list jsstring
}.

Record result := { transformedCode : jsstring; diag : diagnostics }.

(** The first loop of [transformCode]. *)
Fixpoint apply_src (rules : list rule) (code : jsstring)
  : jsstring * list transformation :=
  match rules with
  | [] => (code, [])
  | r :: rules' =>
      match match_count r.(pattern) code with
      | 0 => apply_src rules' code
      | S _ as n =>
          let code' := replace_all r.(pattern) r.(replacement) code in
          let (out, ts) := apply_src rules' code' in
          (out, {| t_pattern := r.(source);
                   t_replacement := r.(replacement);
                   t_count := n;
                   t_type := js "src_transformation" |} :: ts)
      end
  end.

(** The body of [lines.map]: one line through every rule, threading the
    [lastIndex] of each rule and the counter
    [totalRelTransformations]. *)
Fixpoint apply_rel (rules : list rule) (st : list nat) (line : jsstring)
  (total : nat) : jsstring * list nat * nat :=
  match rules with
  | [] => (line, [], total)
  | r :: rules' =>
      let (hit, li) := test_g r.(pattern) (hd 0 st) line in
      let '(line1, li1, total1) :=
        if hit && negb (test guard_from line)
               && negb (test guard_import line)
        then
          let newLine := replace_all r.(pattern) r.(replacement) line in
          if str_eqb newLine line then (line, 0, total)
          else (newLine, 0, S total)
        else (line, li, total) in
      let '(out, st', total') := apply_rel rules' (tl st) line1 total1 in
      (out, li1 :: st', total')
  end.

Fixpoint map_lines (st : list nat) (lines : list jsstring) (total : nat)
  : list jsstring * list nat * nat :=
  match lines with
  | [] => ([], st, total)
  | l :: ls =>
      let '(l', st1, total1) := apply_rel relativeImportMappings st l total in
      let '(ls', st2, total2) := map_lines st1 ls total1 in
      (l' :: ls', st2, total2)
  end.

Definition detectPotentialIssues (code : jsstring)
  : list jsstring * list jsstring :=
  ((if includes code (js "mastering_performant_code.mastering_performant_code")
    then [js "Potential double transformation detected"] else [])
   ++
   (if includes code (js "src.")
       && includes code (js "mastering_performant_code.")
    then [js "Mixed import patterns detected - some imports may not be transformed"]
    else []),
   if includes code (js "from mastering_performant_code. import")
   then [js "Invalid import statement: missing module name after dot"]
   else []).

Definition syntaxChecks : list regex :=
  [ guard_from ++ [Spaces0] ++ lit "import";
    guard_import ++ [Spaces0; EndOfInput];
    guard_from ++ [Spaces0; EndOfInput] ].

Definition hasSyntaxErrors (code : jsstring) : bool :=
  existsb (fun p => test p code) syntaxChecks.

(** [validateTransformation]: the warnings and the errors. *)
Definition validateTransformation (originalCode transformed : jsstring)
  : list jsstring * list jsstring :=
  let (iw, ie) := detectPotentialIssues transformed in
  ((if str_eqb originalCode transformed
    then [js "No transformations were applied"] else []) ++ iw,
   ie ++ (if hasSyntaxErrors transformed
          then [js "Transformed code contains syntax errors"] else [])).

Definition transformCode (r : resolver) (code : jsstring)
  : result * resolver :=
  let (code1, ts) := apply_src importTransformations code in
  let '(lines, st, total) :=
    map_lines r.(lastIndexes) (split_lines code1) 0 in
  let ts' :=
    match total with
    | 0 => ts
    | S _ =>
        ts ++ [ {| t_pattern := js "relativeImportMappings";
                   t_replacement := js "chapter-specific";
                   t_count := total;
                   t_type := js "relative_import_mapping" |} ]
    end in
  let out := join_lines lines in
  let (ws, es) := validateTransformation code out in
  ({| transformedCode := out;
      diag := {| transformations := ts'; warnings := ws; errors := es |} |},
   {| lastIndexes := st |}).

(** The text and the state only. *)
Definition text (r : resolver) (code : jsstring) : jsstring :=
  (fst (transformCode r code)).(transformedCode).
Definition after (r : resolver) (code : jsstring) : resolver :=
  snd (transformCode r code).

End ImportPathResolver.

(* ================================================================= *)
(** ** Logger *)

Module Logger.

(** [Logger.LEVELS] *)
Definition DEBUG := 0.
Definition INFO := 1.
Definition WARN := 2.
Definition ERROR := 3.

(** One call of a [console] method: the level and the message given to
    [Logger]; the time stamp that [formatMessage] adds is left out. *)
Record line := { level : nat; message : jsstring }.

(** [Logger.info], [Logger.error]: the console is written only when
    [Logger.currentLevel] allows it.  [currentLevel] starts as
    [WARN]. *)
Definition log (currentLevel lvl : nat) (msg : jsstring) : list line :=
  if currentLevel <=? lvl then [ {| level := lvl; message := msg |} ]
  else [].

Definition info (currentLevel : nat) := log currentLevel INFO.
Definition error (currentLevel : nat) := log currentLevel ERROR.

End Logger.

(* ================================================================= *)
(** ** PackageManager *)

(** [installPackage] is an [async] function: it runs from its call to
    its first [await] ([start]), and from one [await] to the next
    ([resume]).  Each step returns the new manager, the events of the
    step and where the function stands.  The progress callback is taken
    to return normally. *)

Module PackageManager.

Record progress := {
  status : jsstring;
  percentage : nat;
  message : jsstring
}.

(** The fields of a [PackageManager] that change.  [onProgressUpdate]
    is [true] when a callback is registered. *)
Record manager := {
  isInstalled : bool;
  isInstalling : bool;
  installationProgress : progress;
  onProgressUpdate : bool
}.

Definition packageUrl : jsstring :=
  js "/assets/mastering_performant_code-1.0.0-py3-none-any.whl".

(** [new PackageManager()] *)
Definition initial : manager :=
  {| isInstalled := false;
     isInstalling := false;
     installationProgress :=
       {| status := js "idle"; percentage := 0; message := [] |};
     onProgressUpdate := false |}.

Definition setProgressCallback (m : manager) : manager :=
  {| isInstalled := m.(isInstalled);
     isInstalling := m.(isInstalling);
     installationProgress := m.(installationProgress);
     onProgressUpdate := true |}.

Definition reset (m : manager) : manager :=
  {| isInstalled := false;
     isInstalling := false;
     installationProgress :=
       {| status := js "idle"; percentage := 0; message := [] |};
     onProgressUpdate := m.(onProgressUpdate) |}.

(** What an awaited interpreter call settles to: fulfilled, or rejected
    with an error whose [message] is given. *)
Inductive outcome := Fulfilled | Failed (msg : jsstring).

(** The interpreter seen by one run of [installPackage]: how each of
    its calls ends. *)
Record pyodide := {
  loadPackage : outcome;
  pyimport : outcome;
  micropip_install : outcome;
  verify_import : outcome;
  verify_chapters : outcome
}.

Inductive call :=
| LoadPackage
| Pyimport
| MicropipInstall (url : jsstring)
| RunPythonAsync (script : nat).

Inductive event :=
| Progress (p : progress)      (* [this.installationProgress] assigned *)
| Notify (p : progress)        (* the callback called *)
| Interp (c : call)            (* a call of the interpreter *)
| Console (l : Logger.line).

Definition with_installing (m : manager) (b : bool) : manager :=
  {| isInstalled := m.(isInstalled);
     isInstalling := b;
     installationProgress := m.(installationProgress);
     onProgressUpdate := m.(onProgressUpdate) |}.

Definition with_installed (m : manager) (b : bool) : manager :=
  {| isInstalled := b;
     isInstalling := m.(isInstalling);
     installationProgress := m.(installationProgress);
     onProgressUpdate := m.(onProgressUpdate) |}.

Definition decimal (n : nat) : jsstring :=
  js (DecimalString.NilEmpty.string_of_uint (Nat.to_uint n)).

Section WithLogLevel.

(** [Logger.currentLevel] *)
Variable currentLevel : nat.

Definition console_info (msg : jsstring) : list event :=
  map Console (Logger.info currentLevel msg).
Definition console_error (msg : jsstring) : list event :=
  map Console (Logger.error currentLevel msg).

Definition updateProgress (m : manager) (st : string) (pct : nat)
  (msg : jsstring) : manager * list event :=
  let p := {| status := js st; percentage := pct; message := msg |} in
  ({| isInstalled := m.(isInstalled);
      isInstalling := m.(isInstalling);
      installationProgress := p;
      onProgressUpdate := m.(onProgressUpdate) |},
   [Progress p]
   ++ (if m.(onProgressUpdate) then [Notify p] else [])
   ++ (if str_eqb (js st) (js "error") || str_eqb (js st) (js "complete")
          || (pct mod 25 =? 0)
       then console_info
              (js "Package installation: " ++ js st ++ js " - "
               ++ decimal pct ++ js "% - " ++ msg)
       else [])).

(** The places where [installPackage] is suspended at an [await]. *)
Inductive suspension :=
| AwaitLoadPackage
| AwaitInstall
| AwaitVerifyImport
| AwaitVerifyChapters.

Inductive settled := Resolved (b : bool) | Rejected (msg : jsstring).
Inductive state := Settled (s : settled) | Pending (at_ : suspension).

(** The [catch] and [finally] blocks. *)
Definition fail (m : manager) (msg : jsstring)
  : manager * list event * state :=
  let (m1, e1) :=
    updateProgress m "error" 0 (js "Installation failed: " ++ msg) in
  (with_installing m1 false,
   e1 ++ console_error ([10060%N] ++ js " Package installation failed:"),
   Settled (Rejected msg)).

(** The [catch] block of [verifyInstallation], which makes it return
    [false], and the [throw] that follows in [installPackage]. *)
Definition verification_failed (m : manager)
  : manager * list event * state :=
  let '(m1, e1, s) := fail m (js "Package verification failed") in
  (m1,
   console_error ([10060%N] ++ js " Package verification failed:") ++ e1,
   s).

(** [installPackage] from its call to its first [await] or to its
    [return]. *)
Definition start (m : manager) : manager * list event * state :=
  if m.(isInstalled) then
    (m, console_info (js "Package already installed"),
     Settled (Resolved true))
  else if m.(isInstalling) then
    (m, console_info (js "Package installation already in progress"),
     Settled (Resolved false))
  else
    let m0 := with_installing m true in
    let (m1, e1) :=
      updateProgress m0 "starting" 0
        (js "Starting package installation...") in
    let (m2, e2) :=
      updateProgress m1 "loading_micropip" 10 (js "Loading micropip...") in
    (m2, e1 ++ e2 ++ [Interp LoadPackage], Pending AwaitLoadPackage).

(** [installPackage] from one [await] to the next or to its end, the
    interpreter answering as [py] says. *)
Definition resume (py : pyodide) (at_ : suspension) (m : manager)
  : manager * list event * state :=
  match at_ with
  | AwaitLoadPackage =>
      match py.(loadPackage) with
      | Failed msg => fail m msg
      | Fulfilled =>
          let (m1, e1) :=
            updateProgress m "downloading" 30
              (js "Downloading package from GitHub...") in
          match py.(pyimport) with
          | Failed msg =>
              let '(m2, e2, s) := fail m1 msg in
              (m2, e1 ++ [Interp Pyimport] ++ e2, s)
          | Fulfilled =>
              (m1,
               e1 ++ [Interp Pyimport; Interp (MicropipInstall packageUrl)],
               Pending AwaitInstall)
          end
      end
  | AwaitInstall =>
      match py.(micropip_install) with
      | Failed msg => fail m msg
      | Fulfilled =>
          let (m1, e1) :=
            updateProgress m "verifying" 90
              (js "Verifying package installation...") in
          (m1, e1 ++ [Interp (RunPythonAsync 1)], Pending AwaitVerifyImport)
      end
  | AwaitVerifyImport =>
      match py.(verify_import) with
      | Failed _ => verification_failed m
      | Fulfilled => (m, [Interp (RunPythonAsync 2)], Pending AwaitVerifyChapters)
      end
  | AwaitVerifyChapters =>
      match py.(verify_chapters) with
      | Failed _ => verification_failed m
      | Fulfilled =>
          let (m1, e1) :=
            updateProgress (with_installed m true) "complete" 100
              (js "Package installed successfully!") in
          (with_installing m1 false,
           console_info
             ([9989%N] ++ js " Package verification completed successfully")
           ++ e1
           ++ console_info
                ([9989%N] ++ js " Package installation completed successfully"),
           Settled (Resolved true))
      end
  end.

(** A run with nothing else interleaved: every [await] is resumed as
    soon as the interpreter has answered. *)
Fixpoint drive (fuel : nat) (py : pyodide) (m : manager)
  (tr : list event) (s : state) : manager * list event * state :=
  match s, fuel with
  | Pending at_, S fuel' =>
      let '(m', e, s') := resume py at_ m in
      drive fuel' py m' (tr ++ e) s'
  | _, _ => (m, tr, s)
  end.

Definition installPackage (py : pyodide) (m : manager)
  : manager * list event * state :=
  let '(m1, e1, s1) := start m in drive 4 py m1 e1 s1.

End WithLogLevel.

(** Projections of a trace. *)
Fixpoint updates (tr : list event) : list progress :=
  match tr with
  | [] => []
  | Progress p :: tr' => p :: updates tr'
  | _ :: tr' => updates tr'
  end.

Definition is_interp (e : event) : bool :=
  match e with Interp _ => true | _ => false end.
Definition is_console (e : event) : bool :=
  match e with Console _ => true | _ => false end.

Definition is_error (p : progress) : bool :=
  str_eqb p.(status) (js "error").

Fixpoint nondecreasing (l : list nat) : bool :=
  match l with
  | x :: ((y :: _) as l') => (x <=? y) && nondecreasing l'
  | _ => true
  end.

End PackageManager.

(* ================================================================= *)
(** ** PyodideExecutor *)

(** [execute] is modelled on an explicit world: the state of the
    interpreter, the number of clock readings taken, and the trace of
    rewritings, clock readings and interpreter calls, in the order in
    which they happen.  The calls of [Logger] in [execute] are left out:
    they write to the console only.  Every script given to the
    interpreter inside the [try] block can raise: the set-up script
    (it prints to the current [sys.stdout] before it rebinds it), the
    code, the two [getvalue] scripts and the restore script. *)

Module PyodideExecutor.

Import ImportPathResolver.

(** What [sys.stdout] or [sys.stderr] is bound to: the channel the
    interpreter started with, a [StringIO] buffer with its content, or a
    [StringIO] that was closed, on which [write] and [getvalue] raise. *)
Inductive stream := Original | Buffer (content : jsstring) | Closed.

(** How a synchronous [runPython] of the user's code ends.  The
    interpreter cannot be interrupted: a run that does not end never
    gives control back. *)
Inductive py_result := Returned | Raised (message : jsstring) | Diverged.

Record memory := {
  heapSize : Z;
  totalObjects : Z;
  garbageCount : Z;
  available : bool;
  memory_error : option jsstring
}.

Record ExecutionResult := {
  success : bool;
  output : jsstring;
  error : option jsstring;
  executionTime : Z;
  memoryUsage : option memory;
  warnings : list jsstring;
  transformationInfo : option result
}.

(** The [options] argument; [None] is a missing key. *)
Record options := {
  timeout : option Z;
  captureOutput : option bool;
  measurePerformance : option bool
}.

Definition no_options : options :=
  {| timeout := None; captureOutput := None; measurePerformance := None |}.

(** The scripts given to the interpreter. *)
Inductive script :=
| SetUpStreams           (* print(os.getcwd()); sys.stdout = StringIO(); ... *)
| User (code : jsstring)
| GetStdout              (* sys.stdout.getvalue() *)
| GetStderr              (* sys.stderr.getvalue() *)
| RestoreStreams         (* sys.stdout = sys.__stdout__; ... *)
| MemoryProbe.

Inductive event :=
| Transform (code : jsstring)
| RunPython (s : script)
| ReadClock (n : nat).     (* the n-th call of performance.now() *)

(** The fields of a [PyodideExecutor] that [execute] reads or changes.
    [pyodide] is [true] when [this.pyodide] is not [null]. *)
Record executor := {
  pyodide : bool;
  isInitialized : bool;
  packageInstalled : bool;
  importPathResolver : resolver
}.

Definition with_resolver (ex : executor) (r : resolver) : executor :=
  {| pyodide := ex.(pyodide);
     isInitialized := ex.(isInitialized);
     packageInstalled := ex.(packageInstalled);
     importPathResolver := r |}.

Definition filePatch : jsstring :=
  join_lines
    [ [] ; js "try:"; js "    __file__"; js "except NameError:";
      js "    __file__ = '<pyodide>'"; [] ].

Definition not_initialized : jsstring := js "PyodideExecutor not initialized".

(** The messages of the errors raised when [this.pyodide] is [null],
    when [getvalue] is asked of a channel that is not a buffer, and when
    a closed buffer is written to or read. *)
Definition null_pyodide : jsstring :=
  js "Cannot read properties of null (reading 'runPython')".
Definition no_getvalue : jsstring :=
  js "AttributeError: object has no attribute 'getvalue'".
Definition closed_file : jsstring :=
  js "ValueError: I/O operation on closed file.".

Section Interpreter.

(** The rest of the interpreter's state, and the interpreter as a
    collaborator: what a run of the user's code does to the state,
    and what the memory script reports. *)
Variable Heap : Type.

(** The state of the interpreter that the fixed scripts of [execute]
    depend on: what [sys.stdout] and [sys.stderr] are bound to, what
    [sys.__stdout__] and [sys.__stderr__] are bound to, and [fault]:
    for each fixed script, the error it raises in this state for a
    reason other than the state of the channels (a name or a module it
    uses was deleted or replaced by code run before), raised before the
    script changes anything. *)
Record PyState := {
  sys_stdout : stream;
  sys_stderr : stream;
  dunder_stdout : stream;
  dunder_stderr : stream;
  fault : script -> option jsstring;
  heap : Heap
}.

Variable run_user : jsstring -> PyState -> PyState * py_result.
Variable memory_probe : PyState -> PyState * (Z * Z * Z + jsstring).

(** [performance.now()]: the n-th reading of the clock. *)
Variable clock : nat -> Z.

Record World := {
  py : PyState;
  ticks : nat;
  trace : list event
}.

Definition now (w : World) : Z * World :=
  (clock w.(ticks),
   {| py := w.(py); ticks := S w.(ticks);
      trace := w.(trace) ++ [ReadClock w.(ticks)] |}).

Definition record_ (w : World) (e : event) (p : PyState) : World :=
  {| py := p; ticks := w.(ticks); trace := w.(trace) ++ [e] |}.

(** The set-up script: it prints the working directory, to whatever
    [sys.stdout] is bound to, and then binds [sys.stdout] and
    [sys.stderr] to new buffers.  [setup_error] is the error it raises,
    if any; [redirect] is the state it leaves when it raises none. *)
Definition setup_error (p : PyState) : option jsstring :=
  match p.(fault) SetUpStreams with
  | Some msg => Some msg
  | None =>
      match p.(sys_stdout) with
      | Closed => Some closed_file
      | Original | Buffer _ => None
      end
  end.

Definition redirect (p : PyState) : PyState :=
  {| sys_stdout := Buffer []; sys_stderr := Buffer [];
     dunder_stdout := p.(dunder_stdout); dunder_stderr := p.(dunder_stderr);
     fault := p.(fault); heap := p.(heap) |}.

(** The scripts [sys.stdout.getvalue()] and [sys.stderr.getvalue()]:
    the content of the channel [st], or the message of the error. *)
Definition getvalue (s : script) (p : PyState) (st : stream)
  : jsstring + jsstring :=
  match p.(fault) s with
  | Some msg => inr msg
  | None =>
      match st with
      | Buffer content => inl content
      | Original => inr no_getvalue
      | Closed => inr closed_file
      end
  end.

(** The restore script: [sys.stdout = sys.__stdout__] and
    [sys.stderr = sys.__stderr__]. *)
Definition restore_error (p : PyState) : option jsstring :=
  p.(fault) RestoreStreams.

Definition restore (p : PyState) : PyState :=
  {| sys_stdout := p.(dunder_stdout); sys_stderr := p.(dunder_stderr);
     dunder_stdout := p.(dunder_stdout); dunder_stderr := p.(dunder_stderr);
     fault := p.(fault); heap := p.(heap) |}.

(** How the [try] block of [execute] ends. *)
Inductive attempt :=
| Done (stdout stderr : jsstring) (time : Z)
| Threw (message : jsstring)
| Hung.

Definition try_block (ex : executor) (w : World) (patchedCode : jsstring)
  : World * attempt :=
  if negb ex.(pyodide) then (w, Threw null_pyodide)
  else
    match setup_error w.(py) with
    | Some msg => (record_ w (RunPython SetUpStreams) w.(py), Threw msg)
    | None =>
        let w1 := record_ w (RunPython SetUpStreams) (redirect w.(py)) in
        let (executionStartTime, w2) := now w1 in
        let (p3, r) := run_user patchedCode w2.(py) in
        let w3 := record_ w2 (RunPython (User patchedCode)) p3 in
        match r with
        | Diverged => (w3, Hung)
        | Raised msg => (w3, Threw msg)
        | Returned =>
            let (executionEndTime, w4) := now w3 in
            let w5 := record_ w4 (RunPython GetStdout) w4.(py) in
            match getvalue GetStdout w5.(py) w5.(py).(sys_stdout) with
            | inr msg => (w5, Threw msg)
            | inl stdout =>
                let w6 := record_ w5 (RunPython GetStderr) w5.(py) in
                match getvalue GetStderr w6.(py) w6.(py).(sys_stderr) with
                | inr msg => (w6, Threw msg)
                | inl stderr =>
                    match restore_error w6.(py) with
                    | Some msg =>
                        (record_ w6 (RunPython RestoreStreams) w6.(py),
                         Threw msg)
                    | None =>
                        (record_ w6 (RunPython RestoreStreams)
                           (restore w6.(py)),
                         Done stdout stderr
                           (executionEndTime - executionStartTime)%Z)
                    end
                end
            end
        end
    end.

Definition getMemoryUsage (ex : executor) (w : World) : World * memory :=
  if negb ex.(pyodide) || negb ex.(isInitialized) then
    (w, {| heapSize := 0; totalObjects := 0; garbageCount := 0;
           available := false; memory_error := None |})
  else
    let (p, r) := memory_probe w.(py) in
    (record_ w (RunPython MemoryProbe) p,
     match r with
     | inl (h, t, g) =>
         {| heapSize := h; totalObjects := t; garbageCount := g;
            available := true; memory_error := None |}
     | inr msg =>
         {| heapSize := 0; totalObjects := 0; garbageCount := 0;
            available := false; memory_error := Some msg |}
     end).

(** What the promise returned by [execute] comes to. *)
Inductive settled :=
| Resolved (r : ExecutionResult)
| Rejected (message : jsstring)
| NeverSettles.

Definition execute (ex : executor) (w : World) (code : jsstring)
  (opts : options) : settled * executor * World :=
  if negb ex.(isInitialized) then (Rejected not_initialized, ex, w)
  else
    let '(transformed, info, ex1, w1) :=
      if ex.(packageInstalled) then
        let (t, r) := transformCode ex.(importPathResolver) code in
        (t.(transformedCode), Some t, with_resolver ex r,
         record_ w (Transform code) w.(py))
      else (code, None, ex, w) in
    let patchedCode := filePatch ++ newline :: transformed in
    let measure :=
      match opts.(measurePerformance) with Some b => b | None => true end in
    let (startTime, w2) := now w1 in
    let (w3, a) := try_block ex1 w2 patchedCode in
    let finish (w : World) (ok : bool) (out : jsstring)
          (err : option jsstring) (t : Z) :=
      let (w', mem) :=
        if measure then
          let (w', m) := getMemoryUsage ex1 w in (w', Some m)
        else (w, None) in
      (Resolved {| success := ok; output := out; error := err;
                   executionTime := t; memoryUsage := mem;
                   warnings := []; transformationInfo := info |},
       ex1, w') in
    match a with
    | Hung => (NeverSettles, ex1, w3)
    | Done stdout stderr t =>
        finish w3 true stdout
          (if truthy stderr then Some stderr else None) t
    | Threw msg =>
        let (caught, w4) := now w3 in
        finish w4 false [] (Some msg) (caught - startTime)%Z
    end.

End Interpreter.

End PyodideExecutor.

(* ================================================================= *)
(** ** TestRunner *)

Module TestRunner.

(** [s.split(sep)] for a separator that is not empty. *)
Fixpoint split_go (sep s : jsstring) (skip : nat) (cur : jsstring)
  : list jsstring :=
  match s with
  | [] => [rev cur]
  | c :: s' =>
      match skip with
      | S k => split_go sep s' k cur
      | 0 =>
          if starts_with sep s
          then rev cur :: split_go sep s' (List.length sep - 1) []
          else split_go sep s' 0 (c :: cur)
      end
  end.

Definition split (s sep : jsstring) : list jsstring := split_go sep s 0 [].

Inductive outcome_status := passed | failed | error_.

(** An element of the result: an object made by the fallback parser or
    by the [catch] block, or an object of the JSON payload with its
    [file] replaced. *)
Inductive TestOutcome (J : Type) :=
| Outcome (name : jsstring) (status : outcome_status) (duration : nat)
    (output : jsstring) (error : option jsstring) (file : jsstring)
| Spread (result : J) (file : jsstring).

Arguments Outcome {J}.
Arguments Spread {J}.

Definition START := js "TEST_RESULTS_START".
Definition END_ := js "TEST_RESULTS_END".

Definition is_result_line (line : jsstring) : bool :=
  includes line (js "::")
  && (includes line (js "PASSED") || includes line (js "FAILED")
      || includes line (js "ERROR")).

Definition status_of (line : jsstring) : outcome_status :=
  if includes line (js "PASSED") then passed
  else if includes line (js "FAILED") then failed else error_.

Definition name_of (line : jsstring) : jsstring :=
  hd [] (split (last (split line (js "::")) []) (js " ")).

Section Parser.

(** [JSON.parse] followed by [Array.prototype.map]: the elements when
    the text is the JSON of an array, [None] when [JSON.parse] throws
    or when its value has no [map]. *)
Variable J : Type.
Variable JSON_parse : jsstring -> option (list J).

(** The loop of [parseFallbackResults], [results] being the array
    built so far. *)
Fixpoint fallback_loop (lines : list jsstring) (fileName : jsstring)
  (results : list (TestOutcome J)) : list (TestOutcome J) :=
  match lines with
  | [] => results
  | line :: rest =>
      if is_result_line line then
        let st := status_of line in
        fallback_loop rest fileName
          (results ++
           [Outcome (name_of line) st 0 line
              (match st with passed => None | _ => Some line end)
              fileName])
      else fallback_loop rest fileName results
  end.

Definition parseFallbackResults (output fileName : jsstring)
  : list (TestOutcome J) :=
  fallback_loop (split_lines output) fileName [].

(** The loop of [parseTestResults] that collects [jsonData]. *)
Fixpoint collect (lines : list jsstring) (inResults : bool)
  (jsonData : jsstring) : jsstring :=
  match lines with
  | [] => jsonData
  | line :: rest =>
      if str_eqb line START then collect rest true jsonData
      else if str_eqb line END_ then jsonData
      else if inResults then collect rest inResults (jsonData ++ line)
      else collect rest inResults jsonData
  end.

Definition parseTestResults (output fileName : jsstring)
  : list (TestOutcome J) :=
  let jsonData := collect (split_lines output) false [] in
  if truthy jsonData then
    match JSON_parse jsonData with
    | Some parsed => map (fun r => Spread r fileName) parsed
    | None =>
        [Outcome (js "parse_error") error_ 0 output
           (Some (js "Failed to parse test results")) fileName]
    end
  else parseFallbackResults output fileName.

End Parser.

End TestRunner.

(* ================================================================= *)
(** ** Inputs and collaborators used in the statements *)

Module ResolverCases.

Import ImportPathResolver.

(** No rule of the list has a match in the line. *)
Definition silent (rules : list rule) (line : jsstring) : bool :=
  forallb (fun r => match exec_from r.(pattern) line 0 with
                    | None => true
                    | Some _ => false
                    end) rules.

Definition example_in : jsstring :=
  js "from src.chapter_01.dynamic_array import DynamicArray".
Definition example_out : jsstring :=
  js "from mastering_performant_code.chapter_01.dynamic_array import DynamicArray".

(** The source's own first test case ([testTransformation]) and a
    relative import. *)
Definition test_case : jsstring := js "from src.chapter_01 import dynamic_array".
Definition plain_import : jsstring := js "import dynamic_array".

(** Four lines: the first and the third already name the target
    namespace, the second and the fourth are relative imports. *)
Definition four_lines : jsstring :=
  join_lines
    [ js "from mastering_performant_code.a import b; from simple_set import c";
      js "from analyzer import b; from simple_set import a";
      js "from simple_set import x # from mastering_performant_code.y";
      js "from simple_set import z" ].

Definition four_lines_once : jsstring :=
  join_lines
    [ js "from mastering_performant_code.a import b; from simple_set import c";
      js "from mastering_performant_code.chapter_01.analyzer import b; from simple_set import a";
      js "from simple_set import x # from mastering_performant_code.y";
      js "from simple_set import z" ].

Definition four_lines_twice : jsstring :=
  join_lines
    [ js "from mastering_performant_code.a import b; from simple_set import c";
      js "from mastering_performant_code.chapter_01.analyzer import b; from simple_set import a";
      js "from simple_set import x # from mastering_performant_code.y";
      js "from mastering_performant_code.chapter_01.simple_set import z" ].

End ResolverCases.

Module InstallerCases.

Import PackageManager.

(** The first call of [installPackage] up to its [n]-th resumption. *)
Definition steps (lvl n : nat) (py : pyodide) (m : manager)
  : manager * list event * state :=
  let '(m1, e1, s1) := start lvl m in drive lvl n py m1 e1 s1.

(** Calls of [installPackage] one after the other, each run to its
    end. *)
Fixpoint calls (lvl : nat) (pys : list pyodide) (m : manager)
  : manager * list event * list state :=
  match pys with
  | [] => (m, [], [])
  | py :: pys' =>
      let '(m1, e1, s1) := installPackage lvl py m in
      let '(m2, e2, ss) := calls lvl pys' m1 in
      (m2, e1 ++ e2, s1 :: ss)
  end.

(** An interpreter that answers every call, and one whose first call
    fails. *)
Definition working : pyodide :=
  {| loadPackage := Fulfilled; pyimport := Fulfilled;
     micropip_install := Fulfilled; verify_import := Fulfilled;
     verify_chapters := Fulfilled |}.

Definition offline : pyodide :=
  {| loadPackage := Failed (js "Failed to fetch"); pyimport := Fulfilled;
     micropip_install := Fulfilled; verify_import := Fulfilled;
     verify_chapters := Fulfilled |}.

End InstallerCases.

Module ExecutorCases.

Import ImportPathResolver PyodideExecutor.

(** The code that [execute] hands to the interpreter. *)
Definition patched (ex : executor) (code : jsstring) : jsstring :=
  filePatch ++ newline ::
    (if packageInstalled ex then text (importPathResolver ex) code
     else code).

(** Sample collaborators: an interpreter without further state in
    which every run raises, one in which no run ever ends, a memory
    script that fails, and a clock that reads 0, 5, 9, 9, ... *)
Definition raising (msg : jsstring)
  : jsstring -> PyState unit -> PyState unit * py_result :=
  fun _ p => (p, Raised msg).


Definition no_probe : PyState unit -> PyState unit * (Z * Z * Z + jsstring) :=
  fun p => (p, inr (js "unavailable")).

Definition readings (n : nat) : Z :=
  match n with 0 => 0 | 1 => 5 | _ => 9 end.

Definition ready : executor :=
  {| pyodide := true; isInitialized := true; packageInstalled := true;
     importPathResolver := fresh |}.

Definition not_ready : executor :=
  {| pyodide := false; isInitialized := false; packageInstalled := false;
     importPathResolver := fresh |}.

(** The interpreter as it starts: both channels are the original
    ones. *)
Definition clean : World unit :=
  {| py := {| sys_stdout := Original; sys_stderr := Original;
              dunder_stdout := Original; dunder_stderr := Original;
              fault := fun _ => None; heap := tt |};
     ticks := 0; trace := [] |}.

Definition boom : jsstring := js "raise ValueError('boom')".

(** An interpreter in which every run prints a line and returns. *)
Definition printing (line : jsstring)
  : jsstring -> PyState unit -> PyState unit * py_result :=
  fun _ p =>
    ({| sys_stdout :=
          match sys_stdout p with
          | Buffer b => Buffer (b ++ line)
          | other => other
          end;
        sys_stderr := sys_stderr p;
        dunder_stdout := dunder_stdout p;
        dunder_stderr := dunder_stderr p;
        fault := fault p;
        heap := heap p |},
     Returned).

End ExecutorCases.

Module TestRunnerCases.

Import TestRunner.

(** What the fallback parser makes of one result line. *)
Definition recovered (J : Type) (fileName line : jsstring) : TestOutcome J :=
  Outcome (name_of line) (status_of line) 0 line
    (match status_of line with passed => None | _ => Some line end)
    fileName.

Definition pytest_output : jsstring :=
  join_lines
    [ js "tests/test_a.py::test_append PASSED";
      js "tests/test_a.py::TestB::test_pop FAILED - assert 1 == 2";
      js "rootdir: /generated/content";
      js "tests/test_c.py::test_load ERROR" ].

End TestRunnerCases.

(* ================================================================= *)
(** ** The other operations of PyodideExecutor *)

Module ExecutorApi.

Import ImportPathResolver PyodideExecutor.

(** What a promise comes to. *)
Inductive promise (A : Type) :=
| ResolvedTo (a : A)
| RejectedWith (message : jsstring)
| Unsettled.

Arguments ResolvedTo {A}.
Arguments RejectedWith {A}.
Arguments Unsettled {A}.

(** The object returned by [transformAndExecute]: the result of
    [execute] with the key [importDiagnostics] added. *)
Record TransformedResult := {
  executed : ExecutionResult;
  importDiagnostics : diagnostics
}.

(** The object returned by [getImportDiagnostics]; the last two keys
    are missing when the package is not installed. *)
Record ImportDiagnostics := {
  d_transformations : list transformation;
  d_warnings : list jsstring;
  d_errors : list jsstring;
  d_originalCode : option jsstring;
  d_transformedCode : option jsstring
}.

Definition getImportDiagnostics (ex : executor) (code : jsstring)
  : ImportDiagnostics * executor :=
  if negb ex.(packageInstalled) then
    ({| d_transformations := [];
        d_warnings := [js "Package not installed - no transformations applied"];
        d_errors := [];
        d_originalCode := None;
        d_transformedCode := None |}, ex)
  else
    let (t, r) := transformCode ex.(importPathResolver) code in
    let (vw, ve) := validateTransformation code t.(transformedCode) in
    ({| d_transformations := t.(diag).(transformations);
        d_warnings := ImportPathResolver.warnings t.(diag) ++ vw;
        d_errors := t.(diag).(errors) ++ ve;
        d_originalCode := Some code;
        d_transformedCode := Some t.(transformedCode) |},
     with_resolver ex r).

Section Interpreter.

Variable Heap : Type.
Variable run_user : jsstring -> PyState Heap -> PyState Heap * py_result.
Variable memory_probe : PyState Heap -> PyState Heap * (Z * Z * Z + jsstring).
Variable clock : nat -> Z.

(** [transformAndExecute]: the resolver is run first, then [execute] is
    given the rewritten text; the [catch] block throws the error
    again. *)
Definition transformAndExecute (ex : executor) (w : World Heap)
  (code : jsstring) (opts : options)
  : promise TransformedResult * executor * World Heap :=
  let (t, r) := transformCode ex.(importPathResolver) code in
  let ex1 := with_resolver ex r in
  let w1 := record_ w (Transform code) w.(py) in
  match execute run_user memory_probe clock ex1 w1 t.(transformedCode) opts with
  | (Resolved res, ex2, w2) =>
      (ResolvedTo {| executed := res; importDiagnostics := t.(diag) |}, ex2, w2)
  | (Rejected msg, ex2, w2) => (RejectedWith msg, ex2, w2)
  | (NeverSettles, ex2, w2) => (Unsettled, ex2, w2)
  end.

End Interpreter.

(** The executor with the fields that [initialize] and [reset] use. *)
Record service := {
  core : executor;
  isInitializing : bool;
  packageManager : PackageManager.manager;
  packages : list jsstring
}.

(** [new PyodideExecutor()] *)
Definition created : service :=
  {| core := {| pyodide := false; isInitialized := false;
                packageInstalled := false; importPathResolver := fresh |};
     isInitializing := false;
     packageManager := PackageManager.initial;
     packages := [] |}.

(** What [initialize] meets: whether [loadPyodide] is defined, and how
    the calls end. *)
Record environment := {
  loadPyodide_defined : bool;
  loadPyodide_result : PackageManager.outcome;
  version_result : PackageManager.outcome;
  setup_result : PackageManager.outcome;
  package_calls : PackageManager.pyodide
}.

Inductive init_event :=
| LoadPyodide
| RunVersion
| RunSetup
| RunClearModules
| Installer (e : PackageManager.event).

(** How a call of [initialize] stands: returned, thrown, or in the loop
    that waits for another call to finish. *)
Inductive init_status :=
| InitDone
| InitFailed (message : jsstring)
| InitWaiting.

Definition wasm_message (original : jsstring) : jsstring :=
  join_lines
    [ js "WASM instantiation failed. This might be due to:";
      js "1. Browser compatibility issues (try Chrome/Edge)";
      js "2. Memory limitations (close other tabs)";
      js "3. Network issues (check internet connection)";
      js "4. Browser security settings (allow WASM execution)";
      js "                ";
      js "Original error: " ++ original ].

Definition with_core (sv : service) (pyo init installed : bool) : service :=
  {| core := {| pyodide := pyo; isInitialized := init;
                packageInstalled := installed;
                importPathResolver := sv.(core).(importPathResolver) |};
     isInitializing := false;
     packageManager := sv.(packageManager);
     packages := sv.(packages) |}.

(** The [catch] and [finally] blocks of [initialize]. *)
Definition init_fail (sv : service) (pyo : bool) (evs : list init_event)
  (msg : jsstring) : service * list init_event * init_status :=
  (with_core sv pyo sv.(core).(isInitialized) sv.(core).(packageInstalled),
   evs,
   InitFailed (if includes msg (js "WASM") then wasm_message msg else msg)).

(** [initialize], with [installMasteringPerformantCode] and
    [setupPythonEnvironment] in place; [lvl] is [Logger.currentLevel]. *)
Definition initialize (lvl : nat) (env : environment) (sv : service)
  : service * list init_event * init_status :=
  if sv.(core).(isInitialized) then (sv, [], InitDone)
  else if sv.(isInitializing) then (sv, [], InitWaiting)
  else if negb env.(loadPyodide_defined) then
    init_fail sv sv.(core).(pyodide) []
      (js "loadPyodide function not available. Check if Pyodide script is loaded.")
  else
    match env.(loadPyodide_result) with
    | PackageManager.Failed msg => init_fail sv sv.(core).(pyodide) [LoadPyodide] msg
    | PackageManager.Fulfilled =>
        match env.(version_result) with
        | PackageManager.Failed msg => init_fail sv true [LoadPyodide; RunVersion] msg
        | PackageManager.Fulfilled =>
            match env.(setup_result) with
            | PackageManager.Failed msg =>
                init_fail sv true [LoadPyodide; RunVersion; RunSetup]
                  (js "Python environment setup failed: " ++ msg)
            | PackageManager.Fulfilled =>
                let '(pm, evs, st) :=
                  PackageManager.installPackage lvl env.(package_calls)
                    (PackageManager.setProgressCallback sv.(packageManager)) in
                let all := [LoadPyodide; RunVersion; RunSetup] ++ map Installer evs in
                let done (installed : bool) :=
                  ({| core := {| pyodide := true; isInitialized := true;
                                 packageInstalled := installed;
                                 importPathResolver :=
                                   sv.(core).(importPathResolver) |};
                      isInitializing := false;
                      packageManager := pm;
                      packages := sv.(packages) |}, all, InitDone) in
                match st with
                | PackageManager.Settled (PackageManager.Resolved true) => done true
                | PackageManager.Settled _ => done sv.(core).(packageInstalled)
                | PackageManager.Pending _ =>
                    ({| core := {| pyodide := true;
                                   isInitialized := false;
                                   packageInstalled := sv.(core).(packageInstalled);
                                   importPathResolver :=
                                     sv.(core).(importPathResolver) |};
                        isInitializing := true;
                        packageManager := pm;
                        packages := sv.(packages) |}, all, InitWaiting)
                end
            end
        end
    end.

(** [reset]: the script that clears the modules is run when there is an
    interpreter, [clear] saying how it ends; then the package manager is
    reset and [packageInstalled] is cleared.  [resetStats] assigns
    [this.stats] only, which nothing here reads.  The result is the
    message of the error thrown, if any. *)
Definition reset (clear : PackageManager.outcome) (sv : service)
  : service * list init_event * option jsstring :=
  let evs := if sv.(core).(pyodide) then [RunClearModules] else [] in
  match (if sv.(core).(pyodide) then clear else PackageManager.Fulfilled) with
  | PackageManager.Failed msg => (sv, evs, Some msg)
  | PackageManager.Fulfilled =>
      ({| core := {| pyodide := sv.(core).(pyodide);
                     isInitialized := sv.(core).(isInitialized);
                     packageInstalled := false;
                     importPathResolver := sv.(core).(importPathResolver) |};
          isInitializing := sv.(isInitializing);
          packageManager := PackageManager.reset sv.(packageManager);
          packages := sv.(packages) |}, evs, None)
  end.

Definition getInstalledPackages (sv : service) : list jsstring :=
  sv.(packages)
  ++ (if sv.(core).(packageInstalled) then [js "mastering_performant_code"]
      else []).

End ExecutorApi.

(* ================================================================= *)
(** ** The other operations of TestRunner *)

Module TestRunnerApi.

Import ImportPathResolver PyodideExecutor ExecutorApi TestRunner.

Record testFile := { tf_name : jsstring; tf_path : jsstring }.

(** [getTestFiles] *)
Definition getTestFiles (chapterId : jsstring) : list testFile :=
  [ {| tf_name := js "test_analyzer.py";
       tf_path := chapterId ++ js "/tests/test_analyzer.py" |};
    {| tf_name := js "test_dynamic_array.py";
       tf_path := chapterId ++ js "/tests/test_dynamic_array.py" |};
    {| tf_name := js "test_hash_table.py";
       tf_path := chapterId ++ js "/tests/test_hash_table.py" |} ].

(** [createTestScript]: the text does not use its argument. *)
Definition createTestScript (f : testFile) : jsstring :=
  join_lines
    [
      [];
      js "import pytest";
      js "import sys";
      js "import os";
      js "import json";
      js "import time";
      [];
      js "# Add our content directory to Python path";
      js "if '/generated/content' not in sys.path:";
      js "    sys.path.insert(0, '/generated/content')";
      [];
      js "# Configure pytest output";
      js "class TestResultCollector:";
      js "    def __init__(self):";
      js "        self.results = []";
      js "        self.current_test = None";
      js "    ";
      js "    def pytest_runtest_logreport(self, report):";
      js "        if report.when == 'call':";
      js "            result = {";
      js "                'name': report.nodeid,";
      js "                'status': report.outcome,";
      js "                'duration': report.duration,";
      js "                'output': str(report.longrepr) if report.longrepr else '',";
      js "                'file': report.fspath.basename if hasattr(report, 'fspath') else 'unknown'";
      js "            }";
      js "            self.results.append(result)";
      [];
      js "# Run tests";
      js "collector = TestResultCollector()";
      js "pytest.main(['-v', '--tb=short', '--quiet'], plugins=[collector])";
      [];
      js "# Output results as JSON";
      js "print(" ++ [dquote] ++ js "TEST_RESULTS_START" ++ [dquote] ++ js ")";
      js "print(json.dumps(collector.results))";
      js "print(" ++ [dquote] ++ js "TEST_RESULTS_END" ++ [dquote] ++ js ")";
      js "        "
    ].

Definition test_options : options :=
  {| timeout := Some 60000%Z; captureOutput := Some true;
     measurePerformance := None |}.

Definition already_running : jsstring := js "Test execution already in progress".

Section Runner.

Variable Heap : Type.
Variable run_user : jsstring -> PyState Heap -> PyState Heap * py_result.
Variable memory_probe : PyState Heap -> PyState Heap * (Z * Z * Z + jsstring).
Variable clock : nat -> Z.
Variable J : Type.
Variable JSON_parse : jsstring -> option (list J).

Definition runTestFile (ex : executor) (w : World Heap) (f : testFile)
  : promise (list (TestOutcome J)) * executor * World Heap :=
  match execute run_user memory_probe clock ex w
          (createTestScript f) test_options with
  | (Resolved r, ex', w') =>
      (ResolvedTo (parseTestResults JSON_parse r.(output) f.(tf_name)), ex', w')
  | (Rejected msg, ex', w') => (RejectedWith msg, ex', w')
  | (NeverSettles, ex', w') => (Unsettled, ex', w')
  end.

(** The fields of a [TestRunner] that change; [testResults] is the
    [Map], in insertion order. *)
Record runner := {
  isRunning : bool;
  testResults : list (jsstring * list (TestOutcome J))
}.

(** [Map.prototype.set]: an existing key keeps its place. *)
Fixpoint map_set (m : list (jsstring * list (TestOutcome J)))
  (k : jsstring) (v : list (TestOutcome J))
  : list (jsstring * list (TestOutcome J)) :=
  match m with
  | [] => [(k, v)]
  | (k', v') :: m' =>
      if str_eqb k' k then (k, v) :: m' else (k', v') :: map_set m' k v
  end.

Fixpoint map_get (m : list (jsstring * list (TestOutcome J)))
  (k : jsstring) : option (list (TestOutcome J)) :=
  match m with
  | [] => None
  | (k', v') :: m' => if str_eqb k' k then Some v' else map_get m' k
  end.

(** The [for] loop of [runChapterTests]; [None] when a test file never
    settles. *)
Fixpoint run_files (files : list testFile) (ex : executor) (w : World Heap)
  (results : list (TestOutcome J))
  : option (list (TestOutcome J)) * executor * World Heap :=
  match files with
  | [] => (Some results, ex, w)
  | f :: rest =>
      match runTestFile ex w f with
      | (ResolvedTo fileResults, ex', w') =>
          run_files rest ex' w' (results ++ fileResults)
      | (RejectedWith msg, ex', w') =>
          run_files rest ex' w'
            (results ++
             [Outcome f.(tf_name) error_ 0 [] (Some msg) f.(tf_name)])
      | (Unsettled, ex', w') => (None, ex', w')
      end
  end.

Definition runChapterTests (rn : runner) (ex : executor) (w : World Heap)
  (chapterId : jsstring)
  : promise (list (TestOutcome J)) * runner * executor * World Heap :=
  if rn.(isRunning) then (RejectedWith already_running, rn, ex, w)
  else
    match run_files (getTestFiles chapterId) ex w [] with
    | (Some results, ex', w') =>
        (ResolvedTo results,
         {| isRunning := false;
            testResults := map_set rn.(testResults) chapterId results |},
         ex', w')
    | (None, ex', w') =>
        (Unsettled,
         {| isRunning := true; testResults := rn.(testResults) |}, ex', w')
    end.

(** [getTestResults] *)
Definition getTestResults (rn : runner) (chapterId : jsstring)
  : list (TestOutcome J) :=
  match map_get rn.(testResults) chapterId with
  | Some results => results
  | None => []
  end.

End Runner.

End TestRunnerApi.

(* ================================================================= *)
(** ** Notions used in the further properties *)

Module ResolverNotions.

Import ImportPathResolver ResolverCases.

(** A pattern without the assertions [\b] and [$]. *)
Definition plain_atom (a : atom) : bool :=
  match a with WordB | EndOfInput => false | _ => true end.
Definition plain (re : regex) : bool := forallb plain_atom re.

(** The line passes one of the two guards of the line loop. *)
Definition guarded (line : jsstring) : bool :=
  test guard_from line || test guard_import line.

(** No rule of the first loop has a match in the code. *)
Definition no_src (code : jsstring) : bool :=
  forallb (fun r => match_count r.(pattern) code =? 0) importTransformations.

(** No relative rule has a match in the line, or the line is guarded. *)
Definition quiet (line : jsstring) : bool :=
  silent relativeImportMappings line || guarded line.

(** The pairs of an input line and its output line that differ. *)
Definition changed (lines lines' : list jsstring) : list (jsstring * jsstring) :=
  filter (fun p => negb (str_eqb (fst p) (snd p))) (combine lines lines').

Definition empty_import : jsstring := js "from mastering_performant_code. import".

Definition untouched_code : jsstring :=
  join_lines
    [ js "import os";
      js "from mastering_performant_code.chapter_01.dynamic_array import dynamic_array";
      js "print(os.getcwd())" ].

End ResolverNotions.

Module InstallerNotions.

Import PackageManager.

(** Projections of a trace: the snapshots given to the callback and the
    interpreter calls. *)
Fixpoint notifications (tr : list event) : list progress :=
  match tr with
  | [] => []
  | Notify p :: tr' => p :: notifications tr'
  | _ :: tr' => notifications tr'
  end.

Fixpoint interp_calls (tr : list event) : list call :=
  match tr with
  | [] => []
  | Interp c :: tr' => c :: interp_calls tr'
  | _ :: tr' => interp_calls tr'
  end.

Definition fulfilled (o : outcome) : bool :=
  match o with Fulfilled => true | Failed _ => false end.

(** The five interpreter calls of an installation, in order, each with
    the way it ends. *)
Definition plan (py : pyodide) : list (call * outcome) :=
  [ (LoadPackage, py.(loadPackage));
    (Pyimport, py.(pyimport));
    (MicropipInstall packageUrl, py.(micropip_install));
    (RunPythonAsync 1, py.(verify_import));
    (RunPythonAsync 2, py.(verify_chapters)) ].

(** The calls of a plan up to the first one that fails, that one
    included. *)
Fixpoint until_failure (p : list (call * outcome)) : list call :=
  match p with
  | [] => []
  | (c, Fulfilled) :: p' => c :: until_failure p'
  | (c, Failed _) :: _ => [c]
  end.

Definition verification_message : jsstring := js "Package verification failed".

End InstallerNotions.

Module ExecutorNotions.

Import ImportPathResolver PyodideExecutor ExecutorCases.

(** [executionOptions.measurePerformance] *)
Definition measure (opts : options) : bool :=
  match measurePerformance opts with Some b => b | None => true end.

(** The rewriting event of [execute], if any. *)
Definition rewriting (ex : executor) (code : jsstring) : list event :=
  if packageInstalled ex then [Transform code] else [].

(** The executor after the rewriting step of [execute], and the value of
    [transformationInfo]. *)
Definition prepared (ex : executor) (code : jsstring) : executor :=
  if packageInstalled ex
  then with_resolver ex (after (importPathResolver ex) code) else ex.

Definition info_of (ex : executor) (code : jsstring) : option result :=
  if packageInstalled ex
  then Some (fst (transformCode (importPathResolver ex) code)) else None.

(** The clock readings and interpreter calls of [execute] up to the end
    of the run of the code, [t] being the number of readings taken
    before: [startTime], the set-up, [executionStartTime], the run,
    [executionEndTime]. *)
Definition timed_run (t : nat) (patchedCode : jsstring) : list event :=
  [ ReadClock t; RunPython SetUpStreams;
    ReadClock (1 + t); RunPython (User patchedCode); ReadClock (2 + t) ].

(** The same followed by the two reads and the restore: the clock
    readings and interpreter calls when nothing fails. *)
Definition full_run (t : nat) (patchedCode : jsstring) : list event :=
  timed_run t patchedCode
  ++ [ RunPython GetStdout; RunPython GetStderr; RunPython RestoreStreams ].

Definition probing (opts : options) : list event :=
  if measure opts then [RunPython MemoryProbe] else [].

(** The end of [execute] after the [try] statement: the memory script
    and the result object. *)
Definition conclude (Heap : Type)
  (memory_probe : PyState Heap -> PyState Heap * (Z * Z * Z + jsstring))
  (ex1 : executor) (opts : options) (info : option result)
  (w : World Heap) (ok : bool) (out : jsstring) (err : option jsstring)
  (t : Z) : settled * executor * World Heap :=
  let (w', mem) :=
    if measure opts then
      let (w', m) := getMemoryUsage memory_probe ex1 w in (w', Some m)
    else (w, None) in
  (Resolved {| success := ok; output := out; error := err;
               executionTime := t; memoryUsage := mem;
               warnings := []; transformationInfo := info |},
   ex1, w').


(** An interpreter in which every run closes [sys.stdout] and returns,
    and the world with the interpreter in the state that [execute]
    leaves after such a run: the read of the closed buffer raised, so
    the channels were not restored. *)
Definition closing : jsstring -> PyState unit -> PyState unit * py_result :=
  fun _ p =>
    ({| sys_stdout := Closed; sys_stderr := sys_stderr p;
        dunder_stdout := dunder_stdout p; dunder_stderr := dunder_stderr p;
        fault := fault p; heap := heap p |}, Returned).

Definition closed_stdout : World unit :=
  {| py := {| sys_stdout := Closed; sys_stderr := Buffer [];
              dunder_stdout := Original; dunder_stderr := Original;
              fault := fun _ => None; heap := tt |};
     ticks := 0; trace := [] |}.

End ExecutorNotions.

Module LifecycleNotions.

Import ImportPathResolver PyodideExecutor ExecutorApi TestRunner TestRunnerApi.

(** The three steps of [initialize] before the package is installed all
    succeed. *)
Definition boots (env : environment) : bool :=
  loadPyodide_defined env
  && InstallerNotions.fulfilled (loadPyodide_result env)
  && InstallerNotions.fulfilled (version_result env)
  && InstallerNotions.fulfilled (setup_result env).

Definition is_installer (e : init_event) : bool :=
  match e with Installer _ => true | _ => false end.

(** An environment in which everything succeeds, and one in which the
    package cannot be downloaded. *)
Definition online : environment :=
  {| loadPyodide_defined := true;
     loadPyodide_result := PackageManager.Fulfilled;
     version_result := PackageManager.Fulfilled;
     setup_result := PackageManager.Fulfilled;
     package_calls := InstallerCases.working |}.

Definition no_wheel : environment :=
  {| loadPyodide_defined := true;
     loadPyodide_result := PackageManager.Fulfilled;
     version_result := PackageManager.Fulfilled;
     setup_result := PackageManager.Fulfilled;
     package_calls :=
       {| PackageManager.loadPackage := PackageManager.Fulfilled;
          PackageManager.pyimport := PackageManager.Fulfilled;
          PackageManager.micropip_install :=
            PackageManager.Failed (js "404 Not Found");
          PackageManager.verify_import := PackageManager.Fulfilled;
          PackageManager.verify_chapters := PackageManager.Fulfilled |} |}.

Definition no_script : environment :=
  {| loadPyodide_defined := false;
     loadPyodide_result := PackageManager.Fulfilled;
     version_result := PackageManager.Fulfilled;
     setup_result := PackageManager.Fulfilled;
     package_calls := InstallerCases.working |}.

(** A line that is neither marker. *)
Definition unmarked (line : jsstring) : bool :=
  negb (str_eqb line START) && negb (str_eqb line END_).

(** The entry that [runChapterTests] makes for a test file whose run
    was rejected. *)
Definition file_error (J : Type) (msg : jsstring) (f : testFile)
  : TestOutcome J :=
  Outcome f.(tf_name) error_ 0 [] (Some msg) f.(tf_name).


Definition framed_output : jsstring :=
  join_lines
    [ js "collected 2 items";
      js "TEST_RESULTS_START";
      js "[{}, {}]";
      js "TEST_RESULTS_END";
      js "2 passed" ].

End LifecycleNotions.

(* ================================================================= *)
(** * Properties *)

Module JsStringFacts.

Lemma str_eqb_refl (a : jsstring) : str_eqb a a = true.
Proof.
  induction a as [|x a IH]; simpl; [reflexivity|].
  unfold char_eqb. rewrite N.eqb_refl. exact IH.
Qed.

Lemma str_eqb_eq (a b : jsstring) : str_eqb a b = true <-> a = b.
Proof.
  split.
  - revert b. induction a as [|x a IH]; intros [|y b]; simpl; try congruence.
    intros H. apply andb_true_iff in H as [Hxy Hab].
    apply N.eqb_eq in Hxy. f_equal; auto.
  - intros ->. apply str_eqb_refl.
Qed.

Lemma str_eqb_neq (a b : jsstring) : str_eqb a b = false <-> a <> b.
Proof.
  rewrite <- str_eqb_eq. destruct (str_eqb a b); split; congruence.
Qed.

End JsStringFacts.

Module RegexFacts.

(** A search that fails does so whatever the index it reports. *)
Lemma search_none_idx (re : regex) (s : jsstring) :
  forall prev i j, search re prev s i = None -> search re prev s j = None.
Proof.
  induction s as [|c s IH]; intros prev i j; simpl;
    destruct (match_here re prev _); try congruence.
  apply IH.
Qed.

(** When no match starts anywhere in [s], none starts in a suffix. *)
Lemma search_none_seek (re : regex) :
  forall i s prev idx prev' rest j,
    search re prev s idx = None ->
    seek prev s i = Some (prev', rest) ->
    search re prev' rest j = None.
Proof.
  induction i as [|i IH]; intros s prev idx prev' rest j Hs Hk.
  - destruct s; simpl in Hk; inversion Hk; subst;
      eapply search_none_idx; eauto.
  - destruct s as [|c s]; simpl in Hk; [discriminate|].
    simpl in Hs. destruct (match_here re prev (c :: s)); [discriminate|].
    eapply IH; eauto.
Qed.

(** A pattern without a match in [s] fails from every [lastIndex]. *)
Lemma exec_from_none (re : regex) (s : jsstring) (i : nat) :
  exec_from re s 0 = None -> exec_from re s i = None.
Proof.
  unfold exec_from.
  replace (seek None s 0) with (Some (@None jschar, s))
    by (destruct s; reflexivity).
  intros H.
  destruct (seek None s i) as [[prev' rest]|] eqn:Hk; [|reflexivity].
  eapply search_none_seek; eauto.
Qed.

Lemma test_g_none (re : regex) (s : jsstring) (i : nat) :
  exec_from re s 0 = None -> test_g re i s = (false, 0).
Proof.
  intros H. unfold test_g. now rewrite (exec_from_none _ _ i H).
Qed.

End RegexFacts.

Module ResolverFacts.

Import ImportPathResolver ResolverCases RegexFacts.

(** A line in which no rule has a match goes through the rule loop
    unchanged, whatever the [lastIndex] values were, and leaves every
    [lastIndex] at 0. *)
Lemma apply_rel_silent (rules : list rule) (line : jsstring) :
  silent rules line = true ->
  forall st total,
    apply_rel rules st line total = (line, map (fun _ => 0) rules, total).
Proof.
  induction rules as [|r rules IH]; intros H st total; [reflexivity|].
  simpl in H. apply andb_true_iff in H as [Hr Hrest].
  destruct (exec_from (pattern r) line 0) eqn:E; [discriminate|].
  simpl. rewrite (test_g_none _ _ (hd 0 st) E). simpl.
  now rewrite (IH Hrest).
Qed.

(** C8.  On every resolver, whatever it transformed before,
    transforming the single line
    [from src.chapter_01.dynamic_array import DynamicArray] gives
    [from mastering_performant_code.chapter_01.dynamic_array import DynamicArray],
    and [diagnostics.transformations] has exactly one entry, whose
    count is 1 (the entry of the rule [/from\s+src\./g]). *)
Theorem transformCode_example (r : resolver) :
  let res := fst (transformCode r example_in) in
  res.(transformedCode) = example_out
  /\ map t_count res.(diag).(transformations) = [1]
  /\ map t_pattern res.(diag).(transformations) = [js "/from\s+src\./g"].
Proof.
  assert (Hsrc : apply_src importTransformations example_in
                 = (example_out,
                    [ {| t_pattern := js "/from\s+src\./g";
                         t_replacement := js "from mastering_performant_code.";
                         t_count := 1;
                         t_type := js "src_transformation" |} ]))
    by (vm_compute; reflexivity).
  assert (Hsplit : split_lines example_out = [example_out])
    by (vm_compute; reflexivity).
  assert (Hsilent : silent relativeImportMappings example_out = true)
    by (vm_compute; reflexivity).
  unfold transformCode. rewrite Hsrc, Hsplit.
  unfold map_lines. rewrite (apply_rel_silent _ _ Hsilent).
  cbn [join_lines].
  destruct (validateTransformation example_in example_out) as [ws es].
  cbn. repeat split; reflexivity.
Qed.

(** C3.  [transformCode] carries state between calls.  On a new
    resolver [import dynamic_array] is rewritten; once the same
    resolver has transformed
    [from src.chapter_01 import dynamic_array], the same text comes
    back unchanged, because [pattern.test] left a [lastIndex] behind in
    the rule table; a third call rewrites it again. *)
Theorem transformCode_depends_on_history :
  let r1 := after fresh plain_import in
  let r2 := after r1 test_case in
  let r3 := after r2 plain_import in
  text fresh plain_import
    = js "import mastering_performant_code.chapter_01.dynamic_array"
  /\ text r2 plain_import = plain_import
  /\ text r3 plain_import
    = js "import mastering_performant_code.chapter_01.dynamic_array"
  /\ r2 <> fresh.
Proof.
  vm_compute. repeat split; try reflexivity. discriminate.
Qed.

(** C5.  Rewriting is not idempotent on [four_lines]: the first pass
    leaves the last line alone (the [lastIndex] left by the third line
    makes [pattern.test] miss it), the second pass rewrites it.  This
    is so when the three calls of
    [transform(transform(x).text).text === transform(x).text] run in
    that order on one resolver, and also when every call gets a new
    resolver. *)
Theorem transformCode_not_idempotent :
  let r1 := after fresh four_lines in
  let r2 := after r1 (text fresh four_lines) in
  text fresh four_lines = four_lines_once
  /\ text r1 four_lines_once = four_lines_twice
  /\ text r2 four_lines = four_lines_once
  /\ text fresh four_lines_once = four_lines_twice
  /\ four_lines_twice <> four_lines_once.
Proof.
  assert (Hdiff : four_lines_twice <> four_lines_once)
    by (apply JsStringFacts.str_eqb_neq; vm_compute; reflexivity).
  repeat split; try exact Hdiff; vm_compute; reflexivity.
Qed.

End ResolverFacts.

Module PackageManagerFacts.

Import PackageManager InstallerCases.

(** Case analysis on everything a run depends on; afterwards the run
    computes. *)
Ltac cases lvl py m :=
  destruct m as [inst insting prog cb]; simpl in *; subst;
  destruct py as [[|?] [|?] [|?] [|?] [|?]];
  destruct cb;
  destruct lvl as [|[|[|[|lvl]]]].

Ltac finish :=
  repeat match goal with |- _ /\ _ => split end;
  first [ reflexivity
        | eexists; reflexivity
        | intros; discriminate
        | intros; repeat split; reflexivity ].

Lemma start_installed (lvl : nat) (m : manager) :
  isInstalled m = true ->
  start lvl m
  = (m, console_info lvl (js "Package already installed"),
     Settled (Resolved true)).
Proof. intros H. unfold start. now rewrite H. Qed.

Lemma start_installing (lvl : nat) (m : manager) :
  isInstalled m = false -> isInstalling m = true ->
  start lvl m
  = (m, console_info lvl (js "Package installation already in progress"),
     Settled (Resolved false)).
Proof. intros H1 H2. unfold start. now rewrite H1, H2. Qed.

Lemma console_info_only (lvl : nat) (msg : jsstring) :
  forallb is_console (console_info lvl msg) = true.
Proof.
  unfold console_info, Logger.info, Logger.log.
  destruct (lvl <=? Logger.INFO); reflexivity.
Qed.

(** A run that returns [true] leaves the manager installed. *)
Lemma success_installs (lvl : nat) (py : pyodide) (m m' : manager)
  (tr : list event) :
  installPackage lvl py m = (m', tr, Settled (Resolved true)) ->
  isInstalled m' = true.
Proof.
  destruct (isInstalled m) eqn:Hi.
  - unfold installPackage. rewrite (start_installed lvl m Hi). simpl.
    intros H. inversion H; subst. exact Hi.
  - destruct (isInstalling m) eqn:Hg.
    + unfold installPackage. rewrite (start_installing lvl m Hi Hg). simpl.
      intros H. inversion H.
    + cases lvl py m; vm_compute; intros H; inversion H; reflexivity.
Qed.

(** While the first call is suspended, the manager is installing and
    not installed. *)
Lemma suspended_is_installing (lvl n : nat) (py : pyodide)
  (m m1 : manager) (tr : list event) (at_ : suspension) :
  isInstalled m = false -> isInstalling m = false ->
  steps lvl n py m = (m1, tr, Pending at_) ->
  isInstalled m1 = false /\ isInstalling m1 = true.
Proof.
  intros Hi Hg.
  destruct n as [|[|[|[|[|n]]]]];
    cases lvl py m; vm_compute; intros H; inversion H; split; reflexivity.
Qed.

(** C2, as stated, fails.  When the first interpreter call of a run
    fails, the updates of that run report 0, 10 and then 0: the
    percentage drops to 0 in the update that announces the error, and
    the snapshot left behind has status [error] and percentage 0
    before any retry. *)
Lemma error_resets_percentage_at_once :
  let '(m', tr, s) := installPackage Logger.WARN offline initial in
  s = Settled (Rejected (js "Failed to fetch"))
  /\ map percentage (updates tr) = [0; 10; 0]
  /\ nondecreasing (map percentage (updates tr)) = false
  /\ status (installationProgress m') = js "error"
  /\ percentage (installationProgress m') = 0.
Proof. vm_compute. repeat split; reflexivity. Qed.

(** C2, amended.  A run of [installPackage] on a manager that is neither
    installed nor installing always settles; its first update reports
    0; the updates other than the error update never lower the
    percentage; when the run fails, its last update is the error
    update, which reports 0 at once and is the snapshot left in the
    manager, and the manager is ready for a retry; when the run
    succeeds, the percentages are 0, 10, 30, 90, 100. *)
Theorem installPackage_progress (lvl : nat) (py : pyodide) (m : manager) :
  isInstalled m = false -> isInstalling m = false ->
  let '(m', tr, s) := installPackage lvl py m in
  let ps := updates tr in
  (exists r, s = Settled r)
  /\ hd_error (map percentage ps) = Some 0
  /\ nondecreasing
       (map percentage (filter (fun p => negb (is_error p)) ps)) = true
  /\ (forall msg, s = Settled (Rejected msg) ->
        let p := last ps (installationProgress m) in
        is_error p = true /\ percentage p = 0
        /\ installationProgress m' = p
        /\ forallb (fun q => negb (is_error q)) (removelast ps) = true
        /\ isInstalled m' = false /\ isInstalling m' = false)
  /\ (s = Settled (Resolved true) ->
        map percentage ps = [0; 10; 30; 90; 100]).
Proof.
  intros Hi Hg. cases lvl py m; vm_compute; finish.
Qed.

Lemma installPackage_progress_witness :
  let '(m', tr, s) := installPackage Logger.WARN working initial in
  s = Settled (Resolved true)
  /\ map percentage (updates tr) = [0; 10; 30; 90; 100].
Proof.
  pose proof (installPackage_progress Logger.WARN working initial
                eq_refl eq_refl) as H.
  destruct (installPackage Logger.WARN working initial) as [[m' tr] s] eqn:E.
  assert (Hs : s = Settled (Resolved true))
    by (vm_compute in E; inversion E; reflexivity).
  split; [exact Hs|].
  destruct H as (_ & _ & _ & _ & H). exact (H Hs).
Defined.

(** C4.  Take a manager that is neither installed nor installing and a
    first call of [installPackage].  (1) When that call returns [true],
    every later call returns [true], leaves the manager as it is and
    does nothing but write to the console: no interpreter call, no
    progress update.  (2) While that call is suspended at any of its
    [await]s, another call returns [false] and leaves the manager as
    it is, with no interpreter call and no progress update; all it
    does is one [Logger.info]. *)
Theorem installPackage_reentry (lvl : nat) (py : pyodide) (m : manager) :
  isInstalled m = false -> isInstalling m = false ->
  (forall m' tr,
      installPackage lvl py m = (m', tr, Settled (Resolved true)) ->
      forall later,
        let '(m'', tr', results) := calls lvl later m' in
        m'' = m'
        /\ results = map (fun _ => Settled (Resolved true)) later
        /\ forallb is_console tr' = true)
  /\ (forall n m1 tr1 at_,
        steps lvl n py m = (m1, tr1, Pending at_) ->
        forall py',
          installPackage lvl py' m1
          = (m1,
             console_info lvl (js "Package installation already in progress"),
             Settled (Resolved false))).
Proof.
  intros Hi Hg. split.
  - intros m' tr Hrun later.
    pose proof (success_installs _ _ _ Hrun) as Hm'.
    induction later as [|py' later IH]; [now repeat split|].
    simpl. unfold installPackage at 1.
    rewrite (start_installed lvl m' Hm'). simpl.
    destruct (calls lvl later m') as [[m'' tr'] results].
    destruct IH as (-> & -> & Htr). repeat split.
    rewrite forallb_app, Htr, console_info_only. reflexivity.
  - intros n m1 tr1 at_ Hsteps py'.
    destruct (suspended_is_installing _ _ _ _ Hi Hg Hsteps) as [H1 H2].
    unfold installPackage. now rewrite (start_installing lvl m1 H1 H2).
Qed.

Lemma installPackage_reentry_witness :
  (let '(m', _, s) := installPackage Logger.WARN working initial in
   s = Settled (Resolved true)
   /\ calls Logger.WARN [offline; working] m'
      = (m', [], [Settled (Resolved true); Settled (Resolved true)]))
  /\ (let '(m1, _, s) := steps Logger.WARN 2 working initial in
      s = Pending AwaitVerifyImport
      /\ installPackage Logger.WARN working m1
         = (m1, [], Settled (Resolved false))).
Proof.
  destruct (installPackage_reentry Logger.WARN working initial
              eq_refl eq_refl) as [HA HB].
  split.
  - destruct (installPackage Logger.WARN working initial)
      as [[m' tr] s] eqn:E.
    assert (Hs : s = Settled (Resolved true))
      by (vm_compute in E; inversion E; reflexivity).
    split; [exact Hs|]. subst s.
    specialize (HA m' tr eq_refl [offline; working]).
    destruct (calls Logger.WARN [offline; working] m')
      as [[m'' tr'] results] eqn:Ec.
    destruct HA as (-> & -> & Htr).
    assert (tr' = []) as ->; [|reflexivity].
    vm_compute in E. inversion E; subst. vm_compute in Ec.
    inversion Ec; reflexivity.
  - destruct (steps Logger.WARN 2 working initial) as [[m1 tr1] s] eqn:E.
    assert (Hs : s = Pending AwaitVerifyImport)
      by (vm_compute in E; inversion E; reflexivity).
    split; [exact Hs|]. subst s.
    exact (HB 2 m1 tr1 AwaitVerifyImport E working).
Defined.

End PackageManagerFacts.

Module ExecutorFacts.

Import ImportPathResolver PyodideExecutor ExecutorCases ExecutorNotions.

(** C1.  When the executed code raises, [execute] resolves with
    [success] false and leaves [sys.stdout] and [sys.stderr] bound to
    the buffers: the script that restores them is the last statement
    of the [try] block and is not run. *)
Theorem execute_raise_leaves_redirection :
  let '(s, _, w) :=
    execute (raising (js "ValueError: boom")) no_probe readings
      ready clean boom no_options in
  (exists r, s = Resolved r /\ success r = false
             /\ error r = Some (js "ValueError: boom"))
  /\ sys_stdout (py clean) = Original
  /\ sys_stdout (py w) = Buffer []
  /\ sys_stderr (py w) = Buffer []
  /\ existsb (fun e => match e with RunPython RestoreStreams => true | _ => false end)
       (trace w) = false.
Proof.
  vm_compute. split; [eexists; repeat split|repeat split].
Qed.

Section AnyInterpreter.

Variable Heap : Type.
Variable run_user : jsstring -> PyState Heap -> PyState Heap * py_result.
Variable memory_probe :
  PyState Heap -> PyState Heap * (Z * Z * Z + jsstring).
Variable clock : nat -> Z.

(** C10.  Before initialization [execute] rejects with
    [PyodideExecutor not initialized]; the executor (its resolver
    included) and the interpreter are left as they were and nothing
    is added to the trace: no rewriting, no interpreter call, no
    clock reading. *)
Theorem execute_before_initialize (ex : executor) (w : World Heap)
  (code : jsstring) (opts : options) :
  isInitialized ex = false ->
  execute run_user memory_probe clock ex w code opts
  = (Rejected (js "PyodideExecutor not initialized"), ex, w).
Proof. intros H. unfold execute. now rewrite H. Qed.

(** [execute] on an initialized executor, in three steps: the
    rewriting and the reading of [startTime], the [try] block, and the
    end ([catch] block, memory script, result). *)
Lemma execute_unfold (ex : executor) (w : World Heap)
  (code : jsstring) (opts : options) :
  isInitialized ex = true ->
  execute run_user memory_probe clock ex w code opts
  = let ex1 := prepared ex code in
    let w2 := {| py := py w; ticks := S (ticks w);
                 trace := (trace w ++ rewriting ex code)
                          ++ [ReadClock (ticks w)] |} in
    match try_block run_user clock ex1 w2 (patched ex code) with
    | (w3, Hung) => (NeverSettles, ex1, w3)
    | (w3, Done out err t) =>
        conclude memory_probe ex1 opts (info_of ex code) w3 true out
          (if truthy err then Some err else None) t
    | (w3, Threw msg) =>
        conclude memory_probe ex1 opts (info_of ex code)
          {| py := py w3; ticks := S (ticks w3);
             trace := trace w3 ++ [ReadClock (ticks w3)] |}
          false [] (Some msg) (clock (ticks w3) - clock (ticks w))%Z
    end.
Proof.
  intros Hinit.
  unfold execute, prepared, info_of, rewriting, patched, text, after,
    conclude, measure, now, record_.
  rewrite Hinit. cbn [negb].
  destruct (packageInstalled ex);
    [destruct (transformCode (importPathResolver ex) code) as [tc r']|];
    cbn [fst snd py ticks trace]; rewrite ?app_nil_r;
    match goal with
    | |- context [try_block ?ru ?ck ?e ?w0 ?c] =>
        destruct (try_block ru ck e w0 c) as [w3 [out err t|msg|]]
    end; reflexivity.
Qed.

Lemma prepared_flags (ex : executor) (code : jsstring) :
  pyodide (prepared ex code) = pyodide ex
  /\ isInitialized (prepared ex code) = isInitialized ex
  /\ packageInstalled (prepared ex code) = packageInstalled ex.
Proof.
  unfold prepared. destruct (packageInstalled ex) eqn:E;
    repeat split; auto.
Qed.

(** The [try] block when the set-up script raises: the code is not
    run. *)
Lemma try_block_setup_fails (ex : executor) (w : World Heap) (c msg : jsstring) :
  pyodide ex = true -> setup_error (py w) = Some msg ->
  try_block run_user clock ex w c
  = ({| py := py w; ticks := ticks w;
        trace := trace w ++ [RunPython SetUpStreams] |}, Threw msg).
Proof.
  intros Hpy Hs. unfold try_block, record_. now rewrite Hpy, Hs.
Qed.

(** The [try] block when the set-up script succeeds: the state after
    the run of the code, and then the two reads and the restore. *)
Lemma try_block_runs (ex : executor) (w : World Heap) (c : jsstring) :
  pyodide ex = true -> setup_error (py w) = None ->
  let t := ticks w in
  let '(p, r) := run_user c (redirect (py w)) in
  let ran := trace w ++ [RunPython SetUpStreams; ReadClock t;
                         RunPython (User c)] in
  try_block run_user clock ex w c
  = match r with
    | Diverged => ({| py := p; ticks := S t; trace := ran |}, Hung)
    | Raised msg => ({| py := p; ticks := S t; trace := ran |}, Threw msg)
    | Returned =>
        let read1 := ran ++ [ReadClock (S t); RunPython GetStdout] in
        match getvalue GetStdout p (sys_stdout p) with
        | inr msg =>
            ({| py := p; ticks := S (S t); trace := read1 |}, Threw msg)
        | inl out =>
            let read2 := read1 ++ [RunPython GetStderr] in
            match getvalue GetStderr p (sys_stderr p) with
            | inr msg =>
                ({| py := p; ticks := S (S t); trace := read2 |}, Threw msg)
            | inl err =>
                match restore_error p with
                | Some msg =>
                    ({| py := p; ticks := S (S t);
                        trace := read2 ++ [RunPython RestoreStreams] |},
                     Threw msg)
                | None =>
                    ({| py := restore p; ticks := S (S t);
                        trace := read2 ++ [RunPython RestoreStreams] |},
                     Done out err (clock (S t) - clock t)%Z)
                end
            end
        end
    end.
Proof.
  intros Hpy Hs. cbv zeta. unfold try_block, now, record_.
  rewrite Hpy, Hs. cbn [negb py ticks trace].
  destruct (run_user c (redirect (py w))) as [p [|msg|]];
    cbn [py ticks trace]; rewrite <- ?app_assoc; reflexivity.
Qed.

Lemma conclude_result (ex1 : executor) (opts : options)
  (info : option result) (w : World Heap) (ok : bool) (out : jsstring)
  (err : option jsstring) (t : Z) :
  exists r,
    fst (fst (conclude memory_probe ex1 opts info w ok out err t))
    = Resolved r
    /\ success r = ok /\ output r = out /\ error r = err
    /\ executionTime r = t /\ transformationInfo r = info.
Proof.
  unfold conclude. destruct (measure opts);
    [destruct (getMemoryUsage memory_probe ex1 w)|];
    eexists; repeat split.
Qed.

Lemma conclude_executor (ex1 : executor) (opts : options)
  (info : option result) (w : World Heap) (ok : bool) (out : jsstring)
  (err : option jsstring) (t : Z) :
  snd (fst (conclude memory_probe ex1 opts info w ok out err t)) = ex1.
Proof.
  unfold conclude. destruct (measure opts);
    [destruct (getMemoryUsage memory_probe ex1 w)|]; reflexivity.
Qed.

(** With an interpreter, the memory script is the last call, if it is
    made at all. *)
Lemma conclude_world (ex1 : executor) (opts : options)
  (info : option result) (w : World Heap) (ok : bool) (out : jsstring)
  (err : option jsstring) (t : Z) :
  pyodide ex1 = true -> isInitialized ex1 = true ->
  let w' := snd (conclude memory_probe ex1 opts info w ok out err t) in
  trace w' = trace w ++ probing opts
  /\ ticks w' = ticks w
  /\ py w' = (if measure opts then fst (memory_probe (py w)) else py w).
Proof.
  intros Hpy Hinit. unfold conclude, probing, getMemoryUsage, record_.
  rewrite Hpy, Hinit. cbn [negb orb].
  destruct (measure opts); [destruct (memory_probe (py w))|];
    cbn; rewrite ?app_nil_r; repeat split.
Qed.

Lemma try_block_no_interpreter (ex : executor) (w : World Heap)
  (c : jsstring) :
  pyodide ex = false ->
  try_block run_user clock ex w c = (w, Threw null_pyodide).
Proof. intros Hpy. unfold try_block. now rewrite Hpy. Qed.

(** [execute] on an initialized executor with an interpreter, case by
    case: which call fails, if any, decides the world in which
    [execute] ends and the result it builds there. *)
Lemma execute_cases (ex : executor) (w : World Heap)
  (code : jsstring) (opts : options) :
  isInitialized ex = true -> pyodide ex = true ->
  execute run_user memory_probe clock ex w code opts
  = let ex1 := prepared ex code in
    let c := patched ex code in
    let t := ticks w in
    let before := trace w ++ rewriting ex code in
    let caught (p : PyState Heap) (n : nat) (tr : list event)
          (msg : jsstring) :=
      conclude memory_probe ex1 opts (info_of ex code)
        {| py := p; ticks := S n; trace := tr ++ [ReadClock n] |}
        false [] (Some msg) (clock n - clock t)%Z in
    match setup_error (py w) with
    | Some msg =>
        caught (py w) (1 + t)
          (before ++ [ReadClock t; RunPython SetUpStreams]) msg
    | None =>
        let (p, r) := run_user c (redirect (py w)) in
        let ran := before ++ [ReadClock t; RunPython SetUpStreams;
                              ReadClock (1 + t); RunPython (User c)] in
        match r with
        | Diverged =>
            (NeverSettles, ex1, {| py := p; ticks := 2 + t; trace := ran |})
        | Raised msg => caught p (2 + t) ran msg
        | Returned =>
            match getvalue GetStdout p (sys_stdout p) with
            | inr msg =>
                caught p (3 + t)
                  (ran ++ [ReadClock (2 + t); RunPython GetStdout]) msg
            | inl out =>
                match getvalue GetStderr p (sys_stderr p) with
                | inr msg =>
                    caught p (3 + t)
                      (ran ++ [ReadClock (2 + t); RunPython GetStdout;
                               RunPython GetStderr]) msg
                | inl err =>
                    match restore_error p with
                    | Some msg =>
                        caught p (3 + t)
                          (ran ++ [ReadClock (2 + t); RunPython GetStdout;
                                   RunPython GetStderr;
                                   RunPython RestoreStreams]) msg
                    | None =>
                        conclude memory_probe ex1 opts (info_of ex code)
                          {| py := restore p; ticks := 3 + t;
                             trace := before ++ full_run t c |}
                          true out (if truthy err then Some err else None)
                          (clock (2 + t) - clock (1 + t))%Z
                    end
                end
            end
        end
    end.
Proof.
  intros Hinit Hpy. rewrite (execute_unfold ex w code opts Hinit). cbv zeta.
  destruct (prepared_flags ex code) as (Hpy1 & _ & _). rewrite <- Hpy1 in Hpy.
  destruct (setup_error (py w)) as [msg|] eqn:Hs.
  - rewrite try_block_setup_fails with (msg := msg) by assumption.
    cbn [py ticks trace]. rewrite <- !app_assoc. reflexivity.
  - pose proof (@try_block_runs (prepared ex code)
                  {| py := py w; ticks := S (ticks w);
                     trace := (trace w ++ rewriting ex code)
                              ++ [ReadClock (ticks w)] |}
                  (patched ex code) Hpy Hs) as H.
    cbv zeta in H. cbn [py ticks trace] in H.
    destruct (run_user (patched ex code) (redirect (py w))) as [p [|msg|]];
      rewrite H; clear H.
    + destruct (getvalue GetStdout p (sys_stdout p));
        [destruct (getvalue GetStderr p (sys_stderr p));
         [destruct (restore_error p)|]|];
        cbn [py ticks trace]; unfold full_run, timed_run;
        rewrite <- ?app_assoc; reflexivity.
    + cbn [py ticks trace]. rewrite <- !app_assoc. reflexivity.
    + rewrite <- !app_assoc. reflexivity.
Qed.

(** [execute] ends in [conclude]: destructing it gives the result, the
    executor and the world. *)
Ltac concluded :=
  match goal with
  | |- context [conclude ?mp ?e ?o ?i ?w ?ok ?out ?err ?t] =>
      let R := fresh "R" in
      let E := fresh "E" in
      let W := fresh "W" in
      pose proof (conclude_result e o i w ok out err t) as R;
      pose proof (conclude_executor e o i w ok out err t) as E;
      pose proof (@conclude_world e o i w ok out err t) as W;
      destruct (conclude mp e o i w ok out err t) as [[? ?] ?];
      cbn [fst snd py ticks trace] in R, E, W;
      destruct R as (? & -> & ? & ? & ? & ? & ?)
  end.



End AnyInterpreter.

Lemma execute_before_initialize_witness :
  execute (raising []) no_probe readings not_ready clean boom no_options
  = (Rejected (js "PyodideExecutor not initialized"), not_ready, clean).
Proof.
  apply (execute_before_initialize (raising []) no_probe readings
           not_ready clean boom no_options).
  reflexivity.
Defined.

(** A run that closes [sys.stdout] makes the read of the buffer raise:
    [execute] resolves with that error and leaves the interpreter in
    the state of [closed_stdout], in which the next set-up raises. *)
Lemma closing_leaves_closed_stdout :
  let '(s, _, w) :=
    execute closing no_probe readings ready clean
      (js "sys.stdout.close()") no_options in
  (exists r, s = Resolved r /\ success r = false
             /\ error r = Some closed_file)
  /\ py w = py closed_stdout
  /\ setup_error (py w) = Some closed_file.
Proof.
  vm_compute. split; [eexists; repeat split|split; reflexivity].
Qed.





End ExecutorFacts.

Module TestRunnerFacts.

Import TestRunner TestRunnerCases.

Section Parser.

Variable J : Type.
Variable JSON_parse : jsstring -> option (list J).

Lemma fallback_loop_spec (fileName : jsstring) (lines : list jsstring) :
  forall results,
    fallback_loop lines fileName results
    = results ++ map (@recovered J fileName) (filter is_result_line lines).
Proof.
  induction lines as [|line lines IH]; intros results; simpl.
  - now rewrite app_nil_r.
  - destruct (is_result_line line); rewrite IH; [|reflexivity].
    now rewrite <- app_assoc.
Qed.

(** Without the start marker nothing is collected. *)
Lemma collect_without_start (lines : list jsstring) :
  forallb (fun line => negb (str_eqb line START)) lines = true ->
  collect lines false [] = [].
Proof.
  induction lines as [|line lines IH]; simpl; [reflexivity|].
  intros H. apply andb_true_iff in H as [Hl Hrest].
  destruct (str_eqb line START); [discriminate|].
  destruct (str_eqb line END_); [reflexivity|]. exact (IH Hrest).
Qed.

(** C9.  When no line of the output is [TEST_RESULTS_START] (whether
    or not [TEST_RESULTS_END] occurs), [parseTestResults] does not
    take the error branch: it returns what [parseFallbackResults]
    returns, which is, in the order of the output, one outcome for
    every line that contains [::] and one of [PASSED], [FAILED],
    [ERROR], with the status read from that word, and nothing for
    the other lines. *)
Theorem parseTestResults_falls_back (output fileName : jsstring) :
  forallb (fun line => negb (str_eqb line START)) (split_lines output)
  = true ->
  parseTestResults JSON_parse output fileName
  = parseFallbackResults J output fileName
  /\ parseFallbackResults J output fileName
     = map (@recovered J fileName)
         (filter
            (fun line =>
               includes line (js "::")
               && (includes line (js "PASSED")
                   || includes line (js "FAILED")
                   || includes line (js "ERROR")))
            (split_lines output)).
Proof.
  intros H. split.
  - unfold parseTestResults. now rewrite (collect_without_start _ H).
  - unfold parseFallbackResults. now rewrite fallback_loop_spec.
Qed.

End Parser.

Lemma parseTestResults_falls_back_witness :
  parseTestResults (fun _ : jsstring => @None (list unit))
    pytest_output (js "test_a.py")
  = [ Outcome (js "test_append") passed 0
        (js "tests/test_a.py::test_append PASSED") None (js "test_a.py");
      Outcome (js "test_pop") failed 0
        (js "tests/test_a.py::TestB::test_pop FAILED - assert 1 == 2")
        (Some (js "tests/test_a.py::TestB::test_pop FAILED - assert 1 == 2"))
        (js "test_a.py");
      Outcome (js "test_load") error_ 0
        (js "tests/test_c.py::test_load ERROR")
        (Some (js "tests/test_c.py::test_load ERROR")) (js "test_a.py") ].
Proof.
  destruct (parseTestResults_falls_back
              (fun _ : jsstring => @None (list unit))
              pytest_output (js "test_a.py") eq_refl) as [H1 H2].
  rewrite H1, H2. vm_compute. reflexivity.
Defined.

End TestRunnerFacts.

(* ================================================================= *)
(** * Further properties *)

Module RegexMore.

Import ResolverNotions.

Lemma match_here_spaces1 (re : regex) (prev : option jschar) (s : jsstring) :
  match_here (Spaces1 :: re) prev s
  = match s with
    | x :: s' =>
        if is_space x then
          match match_here (Spaces1 :: re) (Some x) s' with
          | Some n => Some (S n)
          | None => option_map S (match_here re (Some x) s')
          end
        else None
    | [] => None
    end.
Proof. destruct s; reflexivity. Qed.

Lemma match_here_spaces0 (re : regex) (prev : option jschar) (s : jsstring) :
  match_here (Spaces0 :: re) prev s
  = match s with
    | x :: s' =>
        if is_space x then
          match match_here (Spaces0 :: re) (Some x) s' with
          | Some n => Some (S n)
          | None => match_here re prev s
          end
        else match_here re prev s
    | [] => match_here re prev s
    end.
Proof. destruct s; reflexivity. Qed.

Lemma match_here_extend (re : regex) :
  plain re = true ->
  forall s prev n, match_here re prev s = Some n ->
  forall prev' t, exists m, match_here re prev' (s ++ t) = Some m.
Proof.
  induction re as [|a re IH]; intros Hp.
  - intros; simpl; eauto.
  - simpl in Hp. apply andb_true_iff in Hp as [Ha Hre].
    specialize (IH Hre).
    destruct a; try discriminate.
    + intros [|x s] prev n H prev' t; simpl in *; [discriminate|].
      destruct (char_eqb x c); [|discriminate].
      destruct (match_here re (Some x) s) eqn:E; [|discriminate].
      destruct (IH _ _ _ E (Some x) t) as [m ->]. simpl; eauto.
    + intros [|x s] prev n H prev' t; simpl in *; [discriminate|].
      destruct (existsb (char_eqb x) cs); [|discriminate].
      destruct (match_here re (Some x) s) eqn:E; [|discriminate].
      destruct (IH _ _ _ E (Some x) t) as [m ->]. simpl; eauto.
    + intros s. induction s as [|x s IHs]; intros prev n H prev' t;
        rewrite match_here_spaces1 in H; [discriminate|].
      rewrite <- app_comm_cons, match_here_spaces1.
      destruct (is_space x); [|discriminate].
      destruct (match_here (Spaces1 :: re) (Some x) s) as [k|] eqn:E.
      * destruct (IHs _ _ E (Some x) t) as [m ->]. eauto.
      * destruct (match_here re (Some x) s) eqn:E2; [|discriminate].
        destruct (IH _ _ _ E2 (Some x) t) as [m ->].
        destruct (match_here (Spaces1 :: re) (Some x) (s ++ t)); simpl; eauto.
    + assert (Hzero : forall prev n prev' t,
                 match_here re prev [] = Some n ->
                 exists m, match_here (Spaces0 :: re) prev' t = Some m).
      { intros prev n prev' t H. revert prev'.
        induction t as [|y t IHt]; intros prev';
          rewrite match_here_spaces0;
          destruct (IH _ _ _ H prev' []) as [m0 Hm0]; simpl in Hm0; eauto.
        destruct (IH _ _ _ H prev' (y :: t)) as [m Hm]. simpl in Hm.
        rewrite Hm. destruct (is_space y); eauto.
        destruct (match_here (Spaces0 :: re) (Some y) t); eauto. }
      intros s. induction s as [|x s IHs]; intros prev n H prev' t;
        rewrite match_here_spaces0 in H.
      * simpl app. eapply Hzero; eauto.
      * rewrite <- app_comm_cons, match_here_spaces0.
        assert (Hrest : forall k, match_here re prev (x :: s) = Some k ->
                  exists m, match_here re prev' (x :: s ++ t) = Some m).
        { intros k Hk. destruct (IH _ _ _ Hk prev' t) as [m Hm]. eauto. }
        destruct (is_space x).
        -- destruct (match_here (Spaces0 :: re) (Some x) s) as [k|] eqn:E.
           ++ destruct (IHs _ _ E (Some x) t) as [m ->]. eauto.
           ++ destruct (Hrest _ H) as [m ->].
              destruct (match_here (Spaces0 :: re) (Some x) (s ++ t)); eauto.
        -- eapply Hrest; eauto.
Qed.

Lemma search_some_split (re : regex) :
  forall s prev idx r, search re prev s idx = Some r ->
  exists a b prev' n, s = a ++ b /\ match_here re prev' b = Some n.
Proof.
  induction s as [|c s IH]; intros prev idx r H; simpl in H.
  - destruct (match_here re prev []) eqn:E; [|discriminate].
    exists [], [], prev, n. split; [reflexivity|exact E].
  - destruct (match_here re prev (c :: s)) eqn:E.
    + exists [], (c :: s), prev, n. split; [reflexivity|exact E].
    + destruct (IH _ _ _ H) as (a & b & prev' & n & -> & Hm).
      exists (c :: a), b, prev', n. split; [reflexivity|exact Hm].
Qed.

Lemma search_found (re : regex) (w : jsstring) :
  (forall prev, exists m, match_here re prev w = Some m) ->
  forall pre prev idx, exists r, search re prev (pre ++ w) idx = Some r.
Proof.
  intros Hw. induction pre as [|c pre IH]; intros prev idx.
  - simpl. destruct w; simpl; destruct (Hw prev) as [m Hm];
      simpl in Hm; rewrite Hm; eauto.
  - simpl. destruct (match_here re prev (c :: pre ++ w)); eauto.
Qed.

(** A pattern without assertions that matches somewhere in [x] matches
    in every text that contains [x]. *)
Lemma test_context (re : regex) (x : jsstring) :
  plain re = true -> test re x = true ->
  forall pre post, test re (pre ++ x ++ post) = true.
Proof.
  intros Hp Hx pre post. unfold test, exec_from in *.
  replace (seek None x 0) with (Some (@None jschar, x)) in Hx
    by (destruct x; reflexivity).
  replace (seek None (pre ++ x ++ post) 0)
    with (Some (@None jschar, pre ++ x ++ post))
    by (destruct (pre ++ x ++ post); reflexivity).
  destruct (search re None x 0) as [r|] eqn:E; [|discriminate].
  destruct (@search_some_split re _ _ _ _ E) as (a & b & prev' & n & -> & Hm).
  assert (Hw : forall prev, exists m, match_here re prev (b ++ post) = Some m)
    by (intros prev; eapply match_here_extend; eauto).
  destruct (@search_found re _ Hw (pre ++ a) None 0) as [r' Hr'].
  rewrite <- !app_assoc in Hr'. rewrite <- app_assoc. now rewrite Hr'.
Qed.

Lemma starts_with_split (p : jsstring) :
  forall s, starts_with p s = true -> exists post, s = p ++ post.
Proof.
  induction p as [|x p IH]; intros s H; simpl in H; [exists s; reflexivity|].
  destruct s as [|y s]; [discriminate|].
  apply andb_true_iff in H as [Hxy Hp]. apply N.eqb_eq in Hxy. subst y.
  destruct (IH _ Hp) as [post ->]. exists post. reflexivity.
Qed.

Lemma includes_split (p : jsstring) :
  forall s, includes s p = true -> exists pre post, s = pre ++ p ++ post.
Proof.
  induction s as [|c s IH]; intros H; simpl in H;
    apply orb_true_iff in H as [H|H].
  - destruct (@starts_with_split _ _ H) as [post ->]. exists [], post. reflexivity.
  - discriminate.
  - destruct (@starts_with_split _ _ H) as [post ->]. exists [], post. reflexivity.
  - destruct (IH H) as (pre & post & ->). exists (c :: pre), post. reflexivity.
Qed.

(** [replace] either leaves the text as it is or puts the replacement
    somewhere in it. *)
Lemma replace_go_cases (re : regex) (repl : jsstring) :
  forall s prev skip,
    replace_go re repl prev s skip = skipn skip s
    \/ exists pre post, replace_go re repl prev s skip = pre ++ repl ++ post.
Proof.
  induction s as [|c s IH]; intros prev skip.
  - simpl. destruct skip; [|left; reflexivity].
    destruct (match_here re prev []); [right|left; reflexivity].
    exists [], []. now rewrite app_nil_r.
  - simpl. destruct skip as [|k].
    + destruct (match_here re prev (c :: s)) as [[|n]|].
      * right. exists [], (c :: replace_go re repl (Some c) s 0). reflexivity.
      * right. exists [], (replace_go re repl (Some c) s n). reflexivity.
      * destruct (IH (Some c) 0) as [H|(pre & post & H)]; rewrite H.
        -- left. reflexivity.
        -- right. exists (c :: pre), post. reflexivity.
    + apply IH.
Qed.

Lemma replace_all_cases (re : regex) (repl s : jsstring) :
  replace_all re repl s = s
  \/ exists pre post, replace_all re repl s = pre ++ repl ++ post.
Proof. apply (@replace_go_cases re repl s None 0). Qed.

End RegexMore.

Module ResolverMoreFacts.

Import ImportPathResolver ResolverCases ResolverNotions RegexFacts ResolverFacts.

Lemma join_split (s : jsstring) : join_lines (split_lines s) = s.
Proof.
  induction s as [|c s IH]; [reflexivity|].
  simpl. destruct (split_lines s) as [|l ls] eqn:E.
  - destruct s; simpl in E; [discriminate|].
    destruct (char_eqb j newline); [discriminate|].
    destruct (split_lines s); discriminate.
  - destruct (char_eqb c newline) eqn:Ec.
    + apply N.eqb_eq in Ec. subst c. simpl. now rewrite <- IH.
    + simpl in *. destruct ls; rewrite <- IH; reflexivity.
Qed.

Lemma apply_src_no_match (rules : list rule) (code : jsstring) :
  forallb (fun r => match_count r.(pattern) code =? 0) rules = true ->
  apply_src rules code = (code, []).
Proof.
  induction rules as [|r rules IH]; intros H; [reflexivity|].
  simpl in H. apply andb_true_iff in H as [Hr Hrest].
  apply Nat.eqb_eq in Hr. simpl. rewrite Hr. exact (IH Hrest).
Qed.

(** A guarded line goes through the rule loop unchanged. *)
Lemma apply_rel_guarded (line : jsstring) :
  guarded line = true ->
  forall rules st total,
    exists st', apply_rel rules st line total = (line, st', total).
Proof.
  intros Hg. induction rules as [|r rules IH]; intros st total;
    [exists []; reflexivity|].
  simpl. destruct (test_g (pattern r) (hd 0 st) line) as [hit li].
  assert (Hc : hit && negb (test guard_from line)
               && negb (test guard_import line) = false).
  { unfold guarded in Hg. destruct hit; [|reflexivity].
    destruct (test guard_from line); [reflexivity|].
    simpl in Hg. now rewrite Hg. }
  rewrite Hc. destruct (IH (tl st) total) as [st' ->].
  eexists; reflexivity.
Qed.

Lemma apply_rel_quiet (line : jsstring) :
  quiet line = true ->
  forall st total,
    exists st', apply_rel relativeImportMappings st line total
                = (line, st', total).
Proof.
  intros H st total. apply orb_true_iff in H as [H|H].
  - rewrite (apply_rel_silent _ _ H). eexists; reflexivity.
  - now apply apply_rel_guarded.
Qed.

Lemma map_lines_quiet (lines : list jsstring) :
  forallb quiet lines = true ->
  forall st total, exists st', map_lines st lines total = (lines, st', total).
Proof.
  induction lines as [|l lines IH]; intros H st total;
    [exists st; reflexivity|].
  simpl in H. apply andb_true_iff in H as [Hl Hrest]. cbn [map_lines].
  destruct (apply_rel_quiet _ Hl st total) as [st1 ->].
  destruct (IH Hrest st1 total) as [st2 ->]. eexists; reflexivity.
Qed.

(** X1.  No-op rewrite.  When no pattern of [importTransformations]
    matches the code and every line either has no match of a relative
    rule or already names the target namespace after [from] or
    [import], then on every resolver, whatever its history,
    [transformCode] returns the code as it is, no transformation entry,
    and the warning [No transformations were applied] first. *)
Theorem transformCode_noop (r : resolver) (code : jsstring) :
  no_src code = true ->
  forallb quiet (split_lines code) = true ->
  let res := fst (transformCode r code) in
  transformedCode res = code
  /\ transformations (diag res) = []
  /\ hd_error (warnings (diag res)) = Some (js "No transformations were applied").
Proof.
  intros Hsrc Hq. unfold transformCode.
  rewrite (apply_src_no_match _ _ Hsrc).
  destruct (map_lines_quiet _ Hq (lastIndexes r) 0) as [st' ->].
  rewrite join_split. unfold validateTransformation.
  destruct (detectPotentialIssues code) as [iw ie].
  rewrite JsStringFacts.str_eqb_refl. repeat split; reflexivity.
Qed.

Lemma transformCode_noop_witness :
  text fresh untouched_code = untouched_code
  /\ text (after fresh test_case) untouched_code = untouched_code.
Proof.
  assert (Hsrc : no_src untouched_code = true) by (vm_compute; reflexivity).
  assert (Hq : forallb quiet (split_lines untouched_code) = true)
    by (vm_compute; reflexivity).
  split.
  - exact (proj1 (transformCode_noop fresh untouched_code Hsrc Hq)).
  - exact (proj1 (transformCode_noop (after fresh test_case) untouched_code
                    Hsrc Hq)).
Defined.

Lemma guards_plain : plain guard_from = true /\ plain guard_import = true.
Proof. split; reflexivity. Qed.

(** Where a replacement that names the target namespace was put, the
    line is guarded. *)
Lemma guarded_context (repl : jsstring) :
  guarded repl = true ->
  forall pre post, guarded (pre ++ repl ++ post) = true.
Proof.
  unfold guarded. intros H pre post. apply orb_true_iff in H as [H|H].
  - rewrite (RegexMore.test_context _ _ (proj1 guards_plain) H). reflexivity.
  - rewrite (RegexMore.test_context _ _ (proj2 guards_plain) H).
    apply orb_true_r.
Qed.

(** One line through the rules: it comes out unchanged and not counted,
    or changed, guarded and counted once. *)
Lemma apply_rel_once (rules : list rule) :
  forallb (fun r => guarded (replacement r)) rules = true ->
  forall st line total,
    let '(line', _, total') := apply_rel rules st line total in
    (line' = line /\ total' = total)
    \/ (line' <> line /\ guarded line' = true /\ total' = S total).
Proof.
  induction rules as [|r rules IH]; intros H st line total;
    [left; split; reflexivity|].
  simpl in H. apply andb_true_iff in H as [Hr Hrest]. simpl.
  destruct (test_g (pattern r) (hd 0 st) line) as [hit li].
  destruct (hit && negb (test guard_from line)
            && negb (test guard_import line)).
  - destruct (str_eqb (replace_all (pattern r) (replacement r) line) line)
      eqn:Eq.
    + specialize (IH Hrest (tl st) line total).
      destruct (apply_rel rules (tl st) line total) as [[l' s'] t']. exact IH.
    + apply JsStringFacts.str_eqb_neq in Eq.
      destruct (RegexMore.replace_all_cases (pattern r) (replacement r) line)
        as [Hsame|(pre & post & Hnew)]; [contradiction|].
      assert (Hg : guarded (replace_all (pattern r) (replacement r) line) = true)
        by (rewrite Hnew; now apply guarded_context).
      destruct (apply_rel_guarded _ Hg rules (tl st) (S total)) as [st' ->].
      right. repeat split; assumption.
  - specialize (IH Hrest (tl st) line total).
    destruct (apply_rel rules (tl st) line total) as [[l' s'] t']. exact IH.
Qed.

Lemma table_replacements_guarded :
  forallb (fun r => guarded (replacement r)) relativeImportMappings = true.
Proof. vm_compute. reflexivity. Qed.

(** X2.  In the line loop of [transformCode] every line comes out either
    unchanged or naming the target namespace after [from] or [import],
    and the counter reported as the count of the
    [relative_import_mapping] entry grows by the number of lines that
    changed: a line is counted once, however many occurrences were
    replaced in it, and no line is rewritten by two rules. *)
Theorem map_lines_counts_changed_lines (lines : list jsstring) :
  forall st total,
    let '(lines', _, total') := map_lines st lines total in
    Forall2 (fun l l' => l' = l \/ guarded l' = true) lines lines'
    /\ total' = total + List.length (changed lines lines').
Proof.
  induction lines as [|l lines IH]; intros st total.
  - simpl. split; [constructor|lia].
  - cbn [map_lines].
    pose proof (apply_rel_once _ table_replacements_guarded st l total) as H1.
    destruct (apply_rel relativeImportMappings st l total) as [[l' st1] total1].
    specialize (IH st1 total1).
    destruct (map_lines st1 lines total1) as [[lines' st2] total2].
    destruct IH as [HF Ht]. unfold changed in *.
    cbn [combine filter fst snd].
    destruct H1 as [[-> ->]|(Hne & Hg & ->)].
    + rewrite JsStringFacts.str_eqb_refl. cbn [negb]. split; [|exact Ht].
      constructor; [now left|exact HF].
    + assert (E : str_eqb l l' = false)
        by (apply JsStringFacts.str_eqb_neq; congruence).
      rewrite E. cbn [negb List.length]. split; [|lia].
      constructor; [now right|exact HF].
Qed.

(** X3.  An import with nothing after the dot is reported by both
    checks: when the transformed text contains
    [from mastering_performant_code. import], [validateTransformation]
    returns exactly the two errors, the one of [detectPotentialIssues]
    and the one of [hasSyntaxErrors]. *)
Theorem empty_import_two_errors (original transformed : jsstring) :
  includes transformed empty_import = true ->
  snd (validateTransformation original transformed)
  = [ js "Invalid import statement: missing module name after dot";
      js "Transformed code contains syntax errors" ].
Proof.
  intros H. unfold validateTransformation, detectPotentialIssues.
  fold empty_import. rewrite H.
  destruct (RegexMore.includes_split _ _ H) as (pre & post & ->).
  assert (Hs : hasSyntaxErrors (pre ++ empty_import ++ post) = true).
  { assert (Ht : test (guard_from ++ [Spaces0] ++ lit "import") empty_import
                  = true) by (vm_compute; reflexivity).
    unfold hasSyntaxErrors, syntaxChecks. cbn [existsb].
    rewrite (RegexMore.test_context
               (guard_from ++ [Spaces0] ++ lit "import") empty_import
               eq_refl Ht). reflexivity. }
  rewrite Hs. reflexivity.
Qed.

Lemma empty_import_two_errors_witness :
  snd (validateTransformation (js "from src. import x")
         (text fresh (js "from src. import x")))
  = [ js "Invalid import statement: missing module name after dot";
      js "Transformed code contains syntax errors" ].
Proof.
  apply (empty_import_two_errors (js "from src. import x")
           (text fresh (js "from src. import x"))).
  vm_compute. reflexivity.
Defined.

End ResolverMoreFacts.

Module PackageManagerMoreFacts.

Import PackageManager InstallerCases InstallerNotions PackageManagerFacts.

Ltac all_cases lvl py m :=
  destruct m as [inst insting prog cb];
  destruct inst; destruct insting;
  destruct py as [[|?] [|?] [|?] [|?] [|?]];
  destruct cb;
  destruct lvl as [|[|[|[|lvl]]]].

(** X4.  A run of [installPackage] on a manager that is neither
    installed nor installing calls the interpreter in the order
    [loadPackage], [pyimport], [micropip.install], first and second
    verification script, and stops at the first call that fails.  It
    returns [true] exactly when all five calls succeed, and the manager
    is marked installed exactly then; it never returns [false]; whatever
    the outcome, [isInstalling] is false afterwards. *)
Theorem installPackage_outcome (lvl : nat) (py : pyodide) (m : manager) :
  isInstalled m = false -> isInstalling m = false ->
  let '(m', tr, s) := installPackage lvl py m in
  interp_calls tr = until_failure (plan py)
  /\ (s = Settled (Resolved true)
      <-> forallb (fun p => fulfilled (snd p)) (plan py) = true)
  /\ (isInstalled m' = true <-> s = Settled (Resolved true))
  /\ s <> Settled (Resolved false)
  /\ isInstalling m' = false.
Proof.
  intros Hi Hg. cases lvl py m; vm_compute;
    repeat split; try reflexivity; try discriminate;
    intros H; try discriminate H; reflexivity.
Qed.

Lemma installPackage_outcome_witness :
  let '(m', tr, s) := installPackage Logger.WARN offline initial in
  interp_calls tr = [LoadPackage] /\ isInstalled m' = false
  /\ isInstalling m' = false.
Proof.
  pose proof (installPackage_outcome Logger.WARN offline initial
                eq_refl eq_refl) as H.
  destruct (installPackage Logger.WARN offline initial) as [[m' tr] s].
  destruct H as (Hc & Hs & Hi & _ & Hg).
  repeat split; [exact Hc| |exact Hg].
  destruct (isInstalled m'); [|reflexivity].
  pose proof (proj1 Hs (proj1 Hi eq_refl)) as Hall.
  vm_compute in Hall. discriminate Hall.
Defined.

(** X5.  The error a failed run throws: the error of [loadPackage],
    [pyimport] or [micropip.install] when that call fails, with its own
    message; when a verification script fails, a new error
    [Package verification failed], whatever the script's error said.
    The snapshot left in the manager has the message
    [Installation failed: ] followed by the message thrown. *)
Theorem installPackage_error_message (lvl : nat) (py : pyodide) (m : manager) :
  isInstalled m = false -> isInstalling m = false ->
  let '(m', _, s) := installPackage lvl py m in
  (forall e, loadPackage py = Failed e -> s = Settled (Rejected e))
  /\ (forall e, loadPackage py = Fulfilled -> pyimport py = Failed e ->
        s = Settled (Rejected e))
  /\ (forall e, loadPackage py = Fulfilled -> pyimport py = Fulfilled ->
        micropip_install py = Failed e -> s = Settled (Rejected e))
  /\ (loadPackage py = Fulfilled -> pyimport py = Fulfilled ->
      micropip_install py = Fulfilled ->
      fulfilled (verify_import py) && fulfilled (verify_chapters py) = false ->
      s = Settled (Rejected verification_message))
  /\ (forall msg, s = Settled (Rejected msg) ->
        status (installationProgress m') = js "error"
        /\ message (installationProgress m')
           = js "Installation failed: " ++ msg).
Proof.
  intros Hi Hg. cases lvl py m; vm_compute;
    repeat split; intros;
    repeat match goal with
           | H : Failed _ = Failed _ |- _ => inversion H; subst; clear H
           | H : Settled _ = Settled _ |- _ => inversion H; subst; clear H
           end;
    try discriminate; reflexivity.
Qed.

Lemma installPackage_error_message_witness :
  let py := {| loadPackage := Fulfilled; pyimport := Fulfilled;
               micropip_install := Fulfilled;
               verify_import := Failed (js "ModuleNotFoundError");
               verify_chapters := Fulfilled |} in
  let '(m', _, s) := installPackage Logger.WARN py initial in
  s = Settled (Rejected verification_message)
  /\ message (installationProgress m')
     = js "Installation failed: Package verification failed".
Proof.
  intros py.
  pose proof (installPackage_error_message Logger.WARN py initial
                eq_refl eq_refl) as H.
  destruct (installPackage Logger.WARN py initial) as [[m' tr] s].
  destruct H as (_ & _ & _ & Hv & Hm).
  specialize (Hv eq_refl eq_refl eq_refl eq_refl).
  split; [exact Hv|]. exact (proj2 (Hm _ Hv)).
Defined.

(** X6.  Retry.  After a run that failed, a new call with an interpreter
    whose calls all succeed installs the package: it returns [true],
    reports 0, 10, 30, 90, 100 again and leaves the manager
    installed. *)
Theorem installPackage_retry (lvl : nat) (py : pyodide) (m : manager) :
  isInstalled m = false -> isInstalling m = false ->
  let '(m1, _, s1) := installPackage lvl py m in
  forall msg, s1 = Settled (Rejected msg) ->
  let '(m2, tr2, s2) := installPackage lvl working m1 in
  s2 = Settled (Resolved true)
  /\ map percentage (updates tr2) = [0; 10; 30; 90; 100]
  /\ isInstalled m2 = true /\ isInstalling m2 = false.
Proof.
  intros Hi Hg. cases lvl py m; vm_compute; intros ? H;
    try discriminate H; repeat split; reflexivity.
Qed.

Lemma installPackage_retry_witness :
  let '(m1, _, s1) := installPackage Logger.WARN offline initial in
  s1 = Settled (Rejected (js "Failed to fetch"))
  /\ snd (installPackage Logger.WARN working m1) = Settled (Resolved true).
Proof.
  pose proof (installPackage_retry Logger.WARN offline initial
                eq_refl eq_refl) as H.
  destruct (installPackage Logger.WARN offline initial) as [[m1 tr1] s1] eqn:E.
  assert (Hs : s1 = Settled (Rejected (js "Failed to fetch")))
    by (vm_compute in E; inversion E; reflexivity).
  split; [exact Hs|]. specialize (H _ Hs).
  destruct (installPackage Logger.WARN working m1) as [[m2 tr2] s2].
  exact (proj1 H).
Defined.

(** X7.  Progress delivery.  In every call of [installPackage], from
    any state of the manager, the registered callback is given exactly
    the snapshots stored in [installationProgress], in the same order;
    without a callback nothing is delivered. *)
Theorem callback_gets_every_update (lvl : nat) (py : pyodide) (m : manager) :
  let '(_, tr, _) := installPackage lvl py m in
  notifications tr = if onProgressUpdate m then updates tr else [].
Proof.
  all_cases lvl py m; vm_compute; reflexivity.
Qed.

(** X8.  After [reset] a call of [installPackage] installs again, even
    when the manager was installed or a run was still suspended: it
    calls the interpreter as a first run does, and it returns [true]
    exactly when all five calls succeed.  [reset] keeps the callback. *)
Theorem reset_installs_again (lvl : nat) (py : pyodide) (m : manager) :
  let '(m', tr, s) := installPackage lvl py (reset m) in
  interp_calls tr = until_failure (plan py)
  /\ (s = Settled (Resolved true)
      <-> forallb (fun p => fulfilled (snd p)) (plan py) = true)
  /\ onProgressUpdate m' = onProgressUpdate m.
Proof.
  all_cases lvl py m; vm_compute;
    repeat split; try reflexivity; intros H; try discriminate H; reflexivity.
Qed.

End PackageManagerMoreFacts.

Module ExecutorMoreFacts.

Import ImportPathResolver PyodideExecutor ExecutorCases ExecutorNotions
  ExecutorApi.

Section AnyInterpreter.

Variable Heap : Type.
Variable run_user : jsstring -> PyState Heap -> PyState Heap * py_result.
Variable memory_probe : PyState Heap -> PyState Heap * (Z * Z * Z + jsstring).
Variable clock : nat -> Z.

Ltac concluded :=
  match goal with
  | |- context [conclude ?mp ?e ?o ?i ?w ?ok ?out ?err ?t] =>
      let R := fresh "R" in
      let E := fresh "E" in
      let W := fresh "W" in
      pose proof (@ExecutorFacts.conclude_result _ mp e o i w ok out err t)
        as R;
      pose proof (@ExecutorFacts.conclude_executor _ mp e o i w ok out err t)
        as E;
      pose proof (@ExecutorFacts.conclude_world _ mp e o i w ok out err t)
        as W;
      destruct (conclude mp e o i w ok out err t) as [[? ?] ?];
      cbn [fst snd py ticks trace] in R, E, W;
      destruct R as (? & -> & ? & ? & ? & ? & ?)
  end.


(** When the run raises, and also when the set-up script raises before
    it, [execute] resolves with a failure and an empty [output]. *)
Lemma execute_raised (ex : executor) (w : World Heap)
  (code : jsstring) (opts : options) (p : PyState Heap) (msg : jsstring) :
  isInitialized ex = true -> pyodide ex = true ->
  run_user (patched ex code) (redirect (py w)) = (p, Raised msg) ->
  exists r,
    fst (fst (execute run_user memory_probe clock ex w code opts)) = Resolved r
    /\ output r = [] /\ success r = false
    /\ error r = Some (match setup_error (py w) with
                       | Some first => first
                       | None => msg
                       end).
Proof.
  intros Hinit Hpy Hrun.
  rewrite (@ExecutorFacts.execute_cases _ run_user memory_probe clock
             ex w code opts Hinit Hpy). cbv zeta.
  rewrite Hrun. destruct (setup_error (py w)); concluded;
    eexists; repeat split; assumption.
Qed.

(** What [execute] does to the executor, what it reports of the
    rewriting and what it hands to the interpreter. *)
Lemma execute_shape (ex : executor) (w : World Heap)
  (code : jsstring) (opts : options) :
  let '(s, ex', w') := execute run_user memory_probe clock ex w code opts in
  ex' = (if isInitialized ex && packageInstalled ex
         then with_resolver ex (after (importPathResolver ex) code)
         else ex)
  /\ (forall r, s = Resolved r ->
        transformationInfo r
        = if packageInstalled ex
          then Some (fst (transformCode (importPathResolver ex) code))
          else None)
  /\ (isInitialized ex = true -> pyodide ex = true ->
      match setup_error (py w) with
      | None => In (RunPython (User (patched ex code))) (trace w')
      | Some _ =>
          trace w'
          = trace w ++ rewriting ex code
            ++ [ReadClock (ticks w); RunPython SetUpStreams;
                ReadClock (1 + ticks w)]
            ++ probing opts
      end).
Proof.
  destruct (isInitialized ex) eqn:Hinit; cbn [andb].
  2:{ unfold execute. rewrite Hinit. cbn [negb].
      repeat split; intros; discriminate. }
  fold (prepared ex code). fold (info_of ex code).
  destruct (ExecutorFacts.prepared_flags ex code) as (Hpy1 & Hinit1 & _).
  rewrite Hinit in Hinit1.
  destruct (pyodide ex) eqn:Hpy.
  - rewrite (@ExecutorFacts.execute_cases _ run_user memory_probe clock
               ex w code opts Hinit Hpy). cbv zeta.
    assert (Hin : forall pre post,
               In (RunPython (User (patched ex code)))
                 (((trace w ++ rewriting ex code)
                   ++ [ReadClock (ticks w); RunPython SetUpStreams;
                       ReadClock (1 + ticks w);
                       RunPython (User (patched ex code))] ++ pre) ++ post)).
    { intros pre post. rewrite <- !app_assoc. apply in_or_app. right.
      apply in_or_app. right. cbn. auto. }
    destruct (setup_error (py w)) as [msg|].
    + concluded. destruct (W Hpy1 Hinit1) as (-> & _).
      repeat split; [assumption|intros r Hr; congruence|].
      intros _ _. now rewrite <- !app_assoc.
    + destruct (run_user (patched ex code) (redirect (py w)))
        as [p [|msg|]];
        [destruct (getvalue GetStdout p (sys_stdout p));
         [destruct (getvalue GetStderr p (sys_stderr p));
          [destruct (restore_error p)|]|]| |];
        try (concluded; destruct (W Hpy1 Hinit1) as (-> & _);
             (repeat split; [assumption|intros r Hr; congruence|]);
             intros _ _).
      * specialize (Hin [ReadClock (2 + ticks w); RunPython GetStdout;
                         RunPython GetStderr; RunPython RestoreStreams;
                         ReadClock (3 + ticks w)] (probing opts)).
        now rewrite <- !app_assoc in *.
      * specialize (Hin [ReadClock (2 + ticks w); RunPython GetStdout;
                         RunPython GetStderr; RunPython RestoreStreams]
                      (probing opts)).
        unfold full_run, timed_run. now rewrite <- !app_assoc in *.
      * specialize (Hin [ReadClock (2 + ticks w); RunPython GetStdout;
                         RunPython GetStderr; ReadClock (3 + ticks w)]
                      (probing opts)).
        now rewrite <- !app_assoc in *.
      * specialize (Hin [ReadClock (2 + ticks w); RunPython GetStdout;
                         ReadClock (3 + ticks w)] (probing opts)).
        now rewrite <- !app_assoc in *.
      * specialize (Hin [ReadClock (2 + ticks w)] (probing opts)).
        now rewrite <- !app_assoc in *.
      * repeat split; [intros r Hr; discriminate|].
        intros _ _. specialize (Hin [] []).
        now rewrite !app_nil_r in Hin.
  - rewrite (@ExecutorFacts.execute_unfold _ run_user memory_probe clock
               ex w code opts Hinit). cbv zeta.
    rewrite ExecutorFacts.try_block_no_interpreter by assumption.
    concluded. repeat split; [assumption|intros r Hr; congruence|].
    intros _ Hno. discriminate.
Qed.

(** X10.  [execute] changes nothing of the executor but the state of its
    resolver, and that only when it is initialized and the package is
    installed; [transformationInfo] is the result of that rewriting, and
    [null] when the package is not installed; with an interpreter, an
    initialized executor hands it the code behind the [__file__] patch,
    rewritten only when the package is installed, unless the set-up
    script raises: then the set-up is the only call of the [try] block
    and the code is not run. *)
Theorem execute_keeps_executor (ex : executor) (w : World Heap)
  (code : jsstring) (opts : options) :
  let '(s, ex', w') := execute run_user memory_probe clock ex w code opts in
  pyodide ex' = pyodide ex
  /\ isInitialized ex' = isInitialized ex
  /\ packageInstalled ex' = packageInstalled ex
  /\ importPathResolver ex'
     = (if isInitialized ex && packageInstalled ex
        then after (importPathResolver ex) code
        else importPathResolver ex)
  /\ (forall r, s = Resolved r ->
        transformationInfo r
        = if packageInstalled ex
          then Some (fst (transformCode (importPathResolver ex) code))
          else None)
  /\ (isInitialized ex = true -> pyodide ex = true ->
      match setup_error (py w) with
      | None =>
          In (RunPython
                (User (filePatch ++ newline ::
                         (if packageInstalled ex
                          then text (importPathResolver ex) code else code))))
             (trace w')
      | Some _ =>
          trace w'
          = trace w ++ rewriting ex code
            ++ [ReadClock (ticks w); RunPython SetUpStreams;
                ReadClock (1 + ticks w)]
            ++ probing opts
      end).
Proof.
  pose proof (execute_shape ex w code opts) as H. unfold patched in H.
  destruct (execute run_user memory_probe clock ex w code opts)
    as [[s ex'] w'].
  destruct H as (-> & Hinfo & Hin).
  destruct (isInitialized ex) eqn:Hi, (packageInstalled ex) eqn:Hp;
    cbn [andb with_resolver pyodide isInitialized packageInstalled
         importPathResolver] in *;
    repeat split; try reflexivity; try assumption.
Qed.


(** X12.  [transformAndExecute] runs the resolver before [execute]
    checks anything: called before initialization it rejects with
    [PyodideExecutor not initialized], as [execute] does, but the
    resolver has already processed the code and keeps the state this
    left in its rule table. *)
Theorem transformAndExecute_before_initialize (ex : executor)
  (w : World Heap) (code : jsstring) (opts : options) :
  isInitialized ex = false ->
  transformAndExecute run_user memory_probe clock ex w code opts
  = (RejectedWith (js "PyodideExecutor not initialized"),
     with_resolver ex (after (importPathResolver ex) code),
     {| py := py w; ticks := ticks w;
        trace := trace w ++ [Transform code] |}).
Proof.
  intros Hinit. unfold transformAndExecute, after.
  destruct (transformCode (importPathResolver ex) code) as [t r].
  unfold execute. cbn. rewrite Hinit. reflexivity.
Qed.

(** X13.  [transformAndExecute] rewrites whether or not the package is
    installed, and twice when it is.  For an initialized executor with
    an interpreter whose set-up script does not raise, the code handed
    to the interpreter is the patch followed by the rewritten code when
    the package is not installed, and by the rewriting of the rewritten
    code, on the state the first pass left, when it is; in every case
    the resolver is left in the state of the last pass, and
    [importDiagnostics] are those of the first pass. *)
Theorem transformAndExecute_rewrites (ex : executor) (w : World Heap)
  (code : jsstring) (opts : options) :
  isInitialized ex = true -> pyodide ex = true ->
  let r := importPathResolver ex in
  let '(s, ex', w') :=
    transformAndExecute run_user memory_probe clock ex w code opts in
  (setup_error (py w) = None ->
   In (RunPython
         (User (filePatch ++ newline ::
                  (if packageInstalled ex
                   then text (after r code) (text r code)
                   else text r code))))
      (trace w'))
  /\ importPathResolver ex'
     = (if packageInstalled ex then after (after r code) (text r code)
        else after r code)
  /\ (forall res, s = ResolvedTo res ->
        importDiagnostics res = diag (fst (transformCode r code))).
Proof.
  intros Hinit Hpy. cbv zeta. unfold transformAndExecute.
  pose proof (execute_shape
                (with_resolver ex (after (importPathResolver ex) code))
                {| py := py w; ticks := ticks w;
                   trace := trace w ++ [Transform code] |}
                (text (importPathResolver ex) code) opts) as H.
  unfold patched, after, text in *.
  destruct (transformCode (importPathResolver ex) code) as [t r1].
  cbn [fst snd with_resolver record_ pyodide isInitialized packageInstalled
       importPathResolver py] in *.
  destruct (execute run_user memory_probe clock _ _ (transformedCode t) opts)
    as [[s ex'] w'].
  destruct H as (Hres & _ & Hin).
  rewrite Hinit in Hres. cbn [andb] in Hres.
  specialize (Hin Hinit Hpy). subst ex'.
  destruct s;
    (split; [intros Hs; rewrite Hs in Hin; exact Hin
            |split; [now destruct (packageInstalled ex)|]]);
    intros res Hs; inversion Hs; reflexivity.
Qed.

End AnyInterpreter.



Lemma transformAndExecute_before_initialize_witness :
  transformAndExecute (raising []) no_probe readings not_ready clean
    ResolverCases.plain_import no_options
  = (RejectedWith (js "PyodideExecutor not initialized"),
     with_resolver not_ready (after fresh ResolverCases.plain_import),
     {| py := py clean; ticks := 0;
        trace := [Transform ResolverCases.plain_import] |}).
Proof.
  exact (@transformAndExecute_before_initialize unit (raising []) no_probe
           readings not_ready clean ResolverCases.plain_import no_options
           eq_refl).
Defined.

Lemma transformAndExecute_rewrites_witness :
  let '(_, _, w') :=
    transformAndExecute (printing (js "ok")) no_probe readings ready clean
      ResolverCases.four_lines no_options in
  text fresh ResolverCases.four_lines = ResolverCases.four_lines_once
  /\ In (RunPython
           (User (filePatch ++ newline :: ResolverCases.four_lines_twice)))
        (trace w').
Proof.
  pose proof (@transformAndExecute_rewrites unit (printing (js "ok")) no_probe
                readings ready clean ResolverCases.four_lines no_options
                eq_refl eq_refl) as H.
  cbv zeta in H.
  destruct (transformAndExecute (printing (js "ok")) no_probe readings ready
              clean ResolverCases.four_lines no_options) as [[s ex'] w'].
  destruct H as (Hin & _). specialize (Hin eq_refl).
  assert (H1 : text fresh ResolverCases.four_lines
               = ResolverCases.four_lines_once) by (vm_compute; reflexivity).
  assert (H2 : text (after fresh ResolverCases.four_lines)
                 (text fresh ResolverCases.four_lines)
               = ResolverCases.four_lines_twice) by (vm_compute; reflexivity).
  split; [exact H1|].
  cbn [ready packageInstalled importPathResolver] in Hin.
  rewrite H2 in Hin. exact Hin.
Defined.

End ExecutorMoreFacts.

Module ApiFacts.

Import ImportPathResolver PyodideExecutor ExecutorCases ExecutorNotions
  ExecutorApi InstallerNotions LifecycleNotions.

(** X14.  [getImportDiagnostics] validates twice.  When the package is
    installed it runs the resolver, which advances its state, and lists
    every warning and every error of the transformation two times, as it
    appends the result of a second, identical validation; when the
    package is not installed it returns one fixed warning and does not
    touch the resolver. *)
Theorem getImportDiagnostics_repeats (ex : executor) (code : jsstring) :
  let (d, ex') := getImportDiagnostics ex code in
  if packageInstalled ex then
    let t := fst (transformCode (importPathResolver ex) code) in
    d_transformedCode d = Some (transformedCode t)
    /\ d_transformations d = transformations (diag t)
    /\ d_warnings d
       = ImportPathResolver.warnings (diag t)
         ++ ImportPathResolver.warnings (diag t)
    /\ d_errors d = errors (diag t) ++ errors (diag t)
    /\ ex' = with_resolver ex (after (importPathResolver ex) code)
  else
    d_transformations d = []
    /\ d_warnings d = [js "Package not installed - no transformations applied"]
    /\ d_errors d = [] /\ d_transformedCode d = None /\ ex' = ex.
Proof.
  unfold getImportDiagnostics, after.
  destruct (packageInstalled ex); cbn [negb]; [|repeat split].
  unfold transformCode.
  destruct (apply_src importTransformations code) as [code1 ts].
  destruct (map_lines _ _ _) as [[lines st] total].
  destruct (validateTransformation code (join_lines lines)) as [ws es] eqn:E.
  cbn [transformedCode diag fst snd]. rewrite E. repeat split.
Qed.

Ltac boot_cases lvl env sv :=
  destruct sv as [[pyo init inst res] ing [pinst pinsting prog cb] pk];
  destruct env as [defined load version setup [[|?] [|?] [|?] [|?] [|?]]];
  cbn in *; subst;
  destruct cb;
  destruct lvl as [|[|[|[|lvl]]]].

(** X15.  [initialize] does not depend on the package.  When
    [loadPyodide], the version script and the environment set-up
    succeed, a first call of [initialize] ends with [isInitialized]
    true and [isInitializing] false whether or not the installation of
    the package succeeds; [packageInstalled] is true exactly when all
    five calls of the installation succeed, so after a failed
    installation [execute] runs code without rewriting it. *)
Theorem initialize_tolerates_install_failure (lvl : nat)
  (env : environment) (sv : service) :
  isInitialized (core sv) = false -> isInitializing sv = false ->
  packageInstalled (core sv) = false ->
  PackageManager.isInstalled (packageManager sv) = false ->
  PackageManager.isInstalling (packageManager sv) = false ->
  boots env = true ->
  let '(sv', _, st) := initialize lvl env sv in
  st = InitDone
  /\ isInitialized (core sv') = true /\ isInitializing sv' = false
  /\ pyodide (core sv') = true
  /\ (packageInstalled (core sv') = true
      <-> forallb (fun p => fulfilled (snd p)) (plan (package_calls env))
          = true)
  /\ importPathResolver (core sv') = importPathResolver (core sv).
Proof.
  intros H1 H2 H3 H4 H5 H6.
  boot_cases lvl env sv;
    destruct defined; try discriminate;
    destruct load; try discriminate;
    destruct version; try discriminate;
    destruct setup; try discriminate;
    vm_compute; repeat split; try reflexivity;
    intros H; try discriminate H; reflexivity.
Qed.

Lemma initialize_tolerates_install_failure_witness :
  let '(sv', _, st) := initialize Logger.WARN no_wheel created in
  st = InitDone /\ isInitialized (core sv') = true
  /\ packageInstalled (core sv') = false.
Proof.
  pose proof (initialize_tolerates_install_failure Logger.WARN no_wheel
                created eq_refl eq_refl eq_refl eq_refl eq_refl eq_refl) as H.
  destruct (initialize Logger.WARN no_wheel created) as [[sv' evs] st].
  destruct H as (Hst & Hinit & _ & _ & Hp & _).
  repeat split; [exact Hst|exact Hinit|].
  destruct (packageInstalled (core sv')); [|reflexivity].
  pose proof (proj1 Hp eq_refl) as Hall. vm_compute in Hall. discriminate Hall.
Defined.

(** X16.  A failed [initialize].  When [loadPyodide] is missing or one
    of the three first steps fails, a first call of [initialize] throws,
    makes no call for the package, leaves the package manager and
    [packageInstalled] as they were, and leaves [isInitialized] and
    [isInitializing] false, so that [initialize] can be called
    again. *)
Theorem initialize_failure (lvl : nat) (env : environment) (sv : service) :
  isInitialized (core sv) = false -> isInitializing sv = false ->
  boots env = false ->
  let '(sv', evs, st) := initialize lvl env sv in
  (exists msg, st = InitFailed msg)
  /\ isInitialized (core sv') = false /\ isInitializing sv' = false
  /\ existsb is_installer evs = false
  /\ packageManager sv' = packageManager sv
  /\ packageInstalled (core sv') = packageInstalled (core sv).
Proof.
  intros H1 H2 H3. unfold initialize, boots, init_fail, with_core in *.
  rewrite H1, H2.
  destruct (loadPyodide_defined env); cbn [negb andb] in *;
    [|repeat split; eauto].
  destruct (loadPyodide_result env); cbn [fulfilled andb] in *;
    [|repeat split; eauto].
  destruct (version_result env); cbn [fulfilled andb] in *;
    [|repeat split; eauto].
  destruct (setup_result env); cbn [fulfilled andb] in *;
    [discriminate|repeat split; eauto].
Qed.

Lemma initialize_failure_witness :
  let '(sv', evs, st) := initialize Logger.WARN no_script created in
  (exists msg, st = InitFailed msg)
  /\ isInitialized (core sv') = false /\ isInitializing sv' = false
  /\ existsb is_installer evs = false
  /\ packageManager sv' = packageManager created
  /\ packageInstalled (core sv') = packageInstalled (core created).
Proof.
  exact (initialize_failure Logger.WARN no_script created
           eq_refl eq_refl eq_refl).
Defined.

(** X17.  [reset] switches rewriting off for good.  On an initialized
    executor a [reset] whose script succeeds keeps [isInitialized] and
    the state of the resolver's rule table, resets the package manager
    and clears [packageInstalled]; every later [initialize] returns at
    once without installing anything, so [packageInstalled] stays false
    and [execute] reports no [transformationInfo].  When the script
    fails, [reset] throws its error and changes nothing. *)
Theorem reset_disables_rewriting (sv : service) :
  isInitialized (core sv) = true ->
  (let '(sv1, _, err) := reset PackageManager.Fulfilled sv in
   err = None
   /\ isInitialized (core sv1) = true
   /\ packageInstalled (core sv1) = false
   /\ importPathResolver (core sv1) = importPathResolver (core sv)
   /\ PackageManager.isInstalled (packageManager sv1) = false
   /\ (forall lvl env, initialize lvl env sv1 = (sv1, [], InitDone))
   /\ (forall Heap run_user memory_probe clock (w : World Heap) code opts r,
         fst (fst (execute run_user memory_probe clock (core sv1) w code opts))
         = Resolved r ->
         transformationInfo r = None))
  /\ (forall msg, pyodide (core sv) = true ->
        reset (PackageManager.Failed msg) sv
        = (sv, [RunClearModules], Some msg)).
Proof.
  intros Hinit. split.
  - unfold reset. destruct (pyodide (core sv)); cbn;
      (repeat split; try assumption;
       [ intros lvl env; unfold initialize; cbn; now rewrite Hinit
       | intros Heap run_user memory_probe clock w code opts r Hr;
         match goal with
         | _ : fst (fst (execute _ _ _ ?e _ _ _)) = _ |- _ =>
             pose proof (ExecutorMoreFacts.execute_shape
                           run_user memory_probe clock e w code opts) as Hs;
             destruct (execute run_user memory_probe clock e w code opts)
               as [[s ex'] w']
         end;
         cbn in Hr; destruct Hs as (_ & Hinfo & _); exact (Hinfo r Hr) ]).
  - intros msg Hpy. unfold reset. now rewrite Hpy.
Qed.

Lemma reset_disables_rewriting_witness :
  let '(sv0, _, _) := initialize Logger.WARN online created in
  let '(sv1, _, _) := reset PackageManager.Fulfilled sv0 in
  packageInstalled (core sv0) = true
  /\ packageInstalled (core sv1) = false
  /\ initialize Logger.WARN online sv1 = (sv1, [], InitDone).
Proof.
  destruct (initialize Logger.WARN online created) as [[sv0 evs0] st0] eqn:E0.
  assert (Hinit : isInitialized (core sv0) = true)
    by (vm_compute in E0; inversion E0; reflexivity).
  assert (Hp : packageInstalled (core sv0) = true)
    by (vm_compute in E0; inversion E0; reflexivity).
  pose proof (proj1 (reset_disables_rewriting sv0 Hinit)) as H.
  destruct (reset PackageManager.Fulfilled sv0) as [[sv1 evs1] err].
  destruct H as (_ & _ & Hoff & _ & _ & Hagain & _).
  repeat split; [exact Hp|exact Hoff|apply Hagain].
Defined.

End ApiFacts.

Module TestRunnerMoreFacts.

Import ImportPathResolver PyodideExecutor ExecutorCases ExecutorNotions
  ExecutorApi TestRunner TestRunnerCases TestRunnerApi LifecycleNotions.

Lemma markers_differ :
  str_eqb START END_ = false /\ str_eqb END_ START = false.
Proof. split; vm_compute; reflexivity. Qed.

(** Lines before the start marker are skipped. *)
Lemma collect_skips (pre rest : list jsstring) (acc : jsstring) :
  forallb unmarked pre = true ->
  collect (pre ++ rest) false acc = collect rest false acc.
Proof.
  induction pre as [|l pre IH]; intros H; [reflexivity|].
  simpl in H. apply andb_true_iff in H as [Hl Hpre].
  unfold unmarked in Hl. apply andb_true_iff in Hl as [Hs He].
  apply negb_true_iff in Hs, He. cbn [collect app]. rewrite Hs, He.
  exact (IH Hpre).
Qed.

(** Lines between the markers are appended, lines after the end marker
    are not read. *)
Lemma collect_body (body post : list jsstring) :
  forallb unmarked body = true ->
  forall acc, collect (body ++ END_ :: post) true acc = acc ++ List.concat body.
Proof.
  induction body as [|l body IH]; intros H acc.
  - cbn [collect app List.concat].
    rewrite (proj2 markers_differ), JsStringFacts.str_eqb_refl.
    now rewrite app_nil_r.
  - simpl in H. apply andb_true_iff in H as [Hl Hbody].
    unfold unmarked in Hl. apply andb_true_iff in Hl as [Hs He].
    apply negb_true_iff in Hs, He. cbn [collect app List.concat].
    rewrite Hs, He, (IH Hbody). now rewrite app_assoc.
Qed.



Section Runner.

Variable Heap : Type.
Variable run_user : jsstring -> PyState Heap -> PyState Heap * py_result.
Variable memory_probe : PyState Heap -> PyState Heap * (Z * Z * Z + jsstring).
Variable clock : nat -> Z.
Variable J : Type.
Variable JSON_parse : jsstring -> option (list J).

(** X18.  Framing.  When the lines of the output are some lines without
    markers, the start marker, payload lines without markers, the end
    marker and anything else, [parseTestResults] reads the payload
    lines joined without line breaks and nothing else: when it is the
    JSON of an array, the result is its elements with [file] set; when
    it does not parse, one [parse_error] outcome carrying the whole
    output; when it is empty, the result of the fallback parser. *)
Theorem parseTestResults_framed (output fileName : jsstring)
  (pre body post : list jsstring) :
  split_lines output = pre ++ START :: body ++ END_ :: post ->
  forallb unmarked pre = true -> forallb unmarked body = true ->
  parseTestResults JSON_parse output fileName
  = if truthy (List.concat body) then
      match JSON_parse (List.concat body) with
      | Some parsed => map (fun r => Spread r fileName) parsed
      | None =>
          [Outcome (js "parse_error") error_ 0 output
             (Some (js "Failed to parse test results")) fileName]
      end
    else parseFallbackResults J output fileName.
Proof.
  intros Hlines Hpre Hbody. unfold parseTestResults. rewrite Hlines.
  rewrite (collect_skips _ _ _ Hpre).
  cbn [collect]. rewrite JsStringFacts.str_eqb_refl.
  rewrite (collect_body _ _ Hbody). reflexivity.
Qed.

(** X19.  A harness that crashes gives no outcome.  When the run of the
    test script raises in the interpreter, [execute] resolves with an
    empty [output], and [runTestFile] resolves to the empty list: no
    outcome and no error entry for the file. *)
Theorem runTestFile_crash_is_empty (ex : executor) (w : World Heap)
  (f : testFile) (p : PyState Heap) (msg : jsstring) :
  isInitialized ex = true -> pyodide ex = true ->
  run_user (patched ex (createTestScript f)) (redirect (py w))
  = (p, Raised msg) ->
  fst (fst (runTestFile run_user memory_probe clock JSON_parse ex w f))
  = ResolvedTo [].
Proof.
  intros Hinit Hpy Hrun. unfold runTestFile.
  destruct (ExecutorMoreFacts.execute_raised run_user memory_probe clock
              ex w (createTestScript f) test_options Hinit Hpy Hrun)
    as (r & Hr & Hout & _).
  destruct (execute run_user memory_probe clock ex w (createTestScript f)
              test_options) as [[s ex'] w'].
  cbn [fst] in *. subst s. rewrite Hout. reflexivity.
Qed.

Lemma run_files_before_initialize (ex : executor) (w : World Heap)
  (files : list testFile) :
  isInitialized ex = false ->
  forall results,
    run_files run_user memory_probe clock JSON_parse files ex w results
    = (Some (results
             ++ map (file_error J (js "PyodideExecutor not initialized")) files),
       ex, w).
Proof.
  intros Hinit. induction files as [|f files IH]; intros results.
  - cbn. now rewrite app_nil_r.
  - cbn [run_files map]. unfold runTestFile, execute. rewrite Hinit.
    cbn [negb]. rewrite IH. now rewrite <- app_assoc.
Qed.

(** X20.  [runChapterTests] on an executor that is not initialized does
    not throw: it resolves to one [error] outcome per test file, each
    with the message [PyodideExecutor not initialized], stores them for
    the chapter, and leaves [isRunning] false; the executor and the
    interpreter are not touched. *)
Theorem runChapterTests_before_initialize (rn : runner J) (ex : executor)
  (w : World Heap) (chapterId : jsstring) :
  isRunning rn = false -> isInitialized ex = false ->
  let results :=
    map (file_error J (js "PyodideExecutor not initialized"))
      (getTestFiles chapterId) in
  runChapterTests run_user memory_probe clock JSON_parse rn ex w chapterId
  = (ResolvedTo results,
     {| isRunning := false;
        testResults := map_set (testResults rn) chapterId results |},
     ex, w).
Proof.
  intros Hrun Hinit. unfold runChapterTests. rewrite Hrun.
  now rewrite (run_files_before_initialize ex w _ Hinit).
Qed.

Lemma map_get_set_same (m : list (jsstring * list (TestOutcome J)))
  (k : jsstring) (v : list (TestOutcome J)) :
  map_get (map_set m k v) k = Some v.
Proof.
  induction m as [|[k' v'] m IH]; simpl.
  - now rewrite JsStringFacts.str_eqb_refl.
  - destruct (str_eqb k' k) eqn:E; simpl.
    + now rewrite JsStringFacts.str_eqb_refl.
    + rewrite E. exact IH.
Qed.

Lemma map_get_set_other (m : list (jsstring * list (TestOutcome J)))
  (k k0 : jsstring) (v : list (TestOutcome J)) :
  k0 <> k -> map_get (map_set m k v) k0 = map_get m k0.
Proof.
  intros Hne. apply JsStringFacts.str_eqb_neq in Hne.
  induction m as [|[k' v'] m IH]; simpl.
  - destruct (str_eqb k k0) eqn:E; [|reflexivity].
    apply JsStringFacts.str_eqb_eq in E. subst.
    now rewrite JsStringFacts.str_eqb_refl in Hne.
  - destruct (str_eqb k' k) eqn:E; simpl.
    + apply JsStringFacts.str_eqb_eq in E. subst k'.
      destruct (str_eqb k k0) eqn:E2; [|reflexivity].
      apply JsStringFacts.str_eqb_eq in E2. subst.
      now rewrite JsStringFacts.str_eqb_refl in Hne.
    + destruct (str_eqb k' k0); [reflexivity|exact IH].
Qed.

(** X21.  The results of a chapter run can be read back.  When
    [runChapterTests] resolves, [isRunning] is false again,
    [getTestResults] of that chapter is the list it resolved to, and
    the stored results of every other chapter are as before.  When
    [isRunning] is true it rejects with
    [Test execution already in progress] and changes nothing. *)
Theorem runChapterTests_stores (rn rn' : runner J) (ex ex' : executor)
  (w w' : World Heap) (chapterId : jsstring)
  (results : list (TestOutcome J)) :
  runChapterTests run_user memory_probe clock JSON_parse rn ex w chapterId
  = (ResolvedTo results, rn', ex', w') ->
  isRunning rn = false /\ isRunning rn' = false
  /\ getTestResults rn' chapterId = results
  /\ (forall other, other <> chapterId ->
        getTestResults rn' other = getTestResults rn other)
  /\ (forall rn0 : runner J,
        isRunning rn0 = true ->
        runChapterTests run_user memory_probe clock JSON_parse
          rn0 ex w chapterId
        = (RejectedWith already_running, rn0, ex, w)).
Proof.
  intros H. unfold runChapterTests in *.
  destruct (isRunning rn) eqn:Hr; [discriminate|].
  destruct (run_files run_user memory_probe clock JSON_parse
              (getTestFiles chapterId) ex w []) as [[[res|] ex1] w1];
    [|discriminate].
  inversion H; subst. unfold getTestResults. cbn [isRunning testResults].
  repeat split.
  - now rewrite map_get_set_same.
  - intros other Hne. now rewrite (map_get_set_other _ _ Hne).
  - intros rn0 H0. now rewrite H0.
Qed.

End Runner.


Lemma parseTestResults_framed_witness :
  parseTestResults (fun _ : jsstring => Some [tt; tt]) framed_output
    (js "test_a.py")
  = [Spread tt (js "test_a.py"); Spread tt (js "test_a.py")].
Proof.
  rewrite (@parseTestResults_framed unit (fun _ => Some [tt; tt])
             framed_output (js "test_a.py")
             [js "collected 2 items"] [js "[{}, {}]"] [js "2 passed"]
             eq_refl eq_refl eq_refl).
  reflexivity.
Defined.

Lemma runTestFile_crash_is_empty_witness :
  fst (fst (runTestFile (raising (js "ModuleNotFoundError: pytest")) no_probe
              readings (fun _ : jsstring => @None (list unit)) ready clean
              {| tf_name := js "test_analyzer.py"; tf_path := [] |}))
  = ResolvedTo [].
Proof.
  apply (@runTestFile_crash_is_empty unit
           (raising (js "ModuleNotFoundError: pytest")) no_probe readings
           unit (fun _ => None) ready clean
           {| tf_name := js "test_analyzer.py"; tf_path := [] |}
           (redirect (py clean)) (js "ModuleNotFoundError: pytest")
           eq_refl eq_refl eq_refl).
Defined.

Lemma runChapterTests_before_initialize_witness :
  fst (fst (fst (runChapterTests (raising []) no_probe readings
                   (fun _ : jsstring => @None (list unit))
                   {| isRunning := false; testResults := [] |}
                   not_ready clean (js "chapter_01"))))
  = ResolvedTo
      (map (file_error unit (js "PyodideExecutor not initialized"))
         (getTestFiles (js "chapter_01"))).
Proof.
  rewrite (@runChapterTests_before_initialize unit (raising []) no_probe
             readings unit (fun _ => None)
             {| isRunning := false; testResults := [] |}
             not_ready clean (js "chapter_01") eq_refl eq_refl).
  reflexivity.
Defined.

Lemma runChapterTests_stores_witness :
  let rn' :=
    snd (fst (fst (runChapterTests (raising []) no_probe readings
                     (fun _ : jsstring => @None (list unit))
                     {| isRunning := false; testResults := [] |}
                     not_ready clean (js "chapter_01")))) in
  isRunning rn' = false
  /\ List.length (getTestResults rn' (js "chapter_01")) = 3.
Proof.
  destruct (runChapterTests (raising []) no_probe readings
              (fun _ : jsstring => @None (list unit))
              {| isRunning := false; testResults := [] |}
              not_ready clean (js "chapter_01"))
    as [[[s rn'] ex'] w'] eqn:E.
  assert (Hs : exists results,
             s = ResolvedTo results /\ List.length results = 3).
  { vm_compute in E. inversion E; subst. eexists; split; reflexivity. }
  destruct Hs as (results & -> & Hlen).
  destruct (@runChapterTests_stores _ _ _ _ _ _ _ _ _ _ _ _ _ _ E)
    as (_ & Hrun & Hget & _).
  cbn [fst snd]. split; [exact Hrun|]. now rewrite Hget.
Defined.

End TestRunnerMoreFacts.
